(** * trstats: the traceroute hop parser and the multi-run aggregator

    A shallow embedding of [src/trstats.py]: [parse_traceroute_output]
    (one run's text to per-hop records) and [get_statistics_per_hop]
    (records of all runs to one aggregate per hop).

    Modelling choices.
    - Text is a [string] of ASCII characters; [splitlines] and [split]
      follow Python's [str.splitlines()] and [str.split()] on that range.
    - A Python float is modelled by an exact rational [Q]: latencies are
      finite, and the statements below are about selection, order and
      decimal rounding, not about binary rounding error.  [round] rounds
      half to even on the exact value and returns a reduced fraction.
    - The builtins [float(s)] and [int(s)] are parameters of the model
      ([py_float], [py_int] : [None] stands for [ValueError]); the literal
      readers [float_literal] and [int_literal] instantiate them on
      concrete inputs.
    - Exceptions are values of [result]; a dict is an association list in
      insertion order, as Python iterates it. *)

From Stdlib Require Import List String Ascii Bool Arith ZArith QArith Qround
  Qreduction Lia Permutation Sorted.
Import ListNotations.

Local Open Scope string_scope.
Local Open Scope Z_scope.
Local Open Scope Q_scope.

(** ** Exceptions *)

Inductive exn : Type :=
| IndexError
| TypeError
| ValueError
| StatisticsError
| OverflowError.

Inductive result (A : Type) : Type :=
| Ok (a : A)
| Raise (e : exn).

Arguments Ok {A} a.
Arguments Raise {A} e.

Definition bind {A B : Type} (m : result A) (k : A -> result B) : result B :=
  match m with
  | Ok a => k a
  | Raise e => Raise e
  end.

Notation "x <- m ;; k" := (bind m (fun x => k))
  (at level 61, m at next level, right associativity).

(** [for x in l: st = body(st, x)], stopping at the first exception. *)
Fixpoint for_each {A S : Type} (body : A -> S -> result S) (l : list A)
  (st : S) : result S :=
  match l with
  | [] => Ok st
  | x :: l' => st' <- body x st ;; for_each body l' st'
  end.

(** A list comprehension whose element expression may raise. *)
Fixpoint map_result {A B : Type} (f : A -> result B) (l : list A)
  : result (list B) :=
  match l with
  | [] => Ok []
  | x :: l' => y <- f x ;; ys <- map_result f l' ;; Ok (y :: ys)
  end.

(** ** Strings *)

(** The ASCII line boundaries of [str.splitlines()]:
    LF, VT, FF, CR, FS, GS, RS. *)
Definition is_linebreak (c : ascii) : bool :=
  match nat_of_ascii c with
  | 10%nat | 11%nat | 12%nat | 13%nat | 28%nat | 29%nat | 30%nat => true
  | _ => false
  end.

(** The ASCII characters for which [str.isspace()] holds. *)
Definition isspace (c : ascii) : bool :=
  match nat_of_ascii c with
  | 9%nat | 10%nat | 11%nat | 12%nat | 13%nat
  | 28%nat | 29%nat | 30%nat | 31%nat | 32%nat => true
  | _ => false
  end.

Definition is_cr (c : ascii) : bool := Nat.eqb (nat_of_ascii c) 13.
Definition is_lf (c : ascii) : bool := Nat.eqb (nat_of_ascii c) 10.

Definition flush (cur : string) : list string :=
  match cur with
  | EmptyString => []
  | _ => [cur]
  end.

(** [cur] is the line read so far.  CR LF is one boundary; a last line is
    kept only when it is not empty. *)
Fixpoint splitlines_from (cur s : string) {struct s} : list string :=
  match s with
  | EmptyString => flush cur
  | String c s' =>
      if is_linebreak c then
        cur :: match s' with
               | String c' s'' =>
                   if is_cr c && is_lf c' then splitlines_from "" s''
                   else splitlines_from "" s'
               | EmptyString => []
               end
      else splitlines_from (cur ++ String c "") s'
  end.

Definition splitlines (s : string) : list string := splitlines_from "" s.

(** [str.split()] with no separator: runs of whitespace separate the
    tokens and no token is empty. *)
Fixpoint split_from (cur s : string) : list string :=
  match s with
  | EmptyString => flush cur
  | String c s' =>
      if isspace c then (flush cur ++ split_from "" s')%list
      else split_from (cur ++ String c "") s'
  end.

Definition split (s : string) : list string := split_from "" s.

(** [sub in s] on strings. *)
Fixpoint contains (sub s : string) : bool :=
  prefix sub s ||
  match s with
  | EmptyString => false
  | String _ s' => contains sub s'
  end.

Definition list_string_eqb (l1 l2 : list string) : bool :=
  if list_eq_dec string_dec l1 l2 then true else false.

(** ** Dicts in insertion order *)

Definition dict (V : Type) : Type := list (string * V).

Fixpoint dict_get {V : Type} (k : string) (d : dict V) : option V :=
  match d with
  | [] => None
  | (k', v) :: d' => if String.eqb k k' then Some v else dict_get k d'
  end.

Definition dict_mem {V : Type} (k : string) (d : dict V) : bool :=
  match dict_get k d with
  | Some _ => true
  | None => false
  end.

(** [d[k] = v]: a present key keeps its place, a new key goes last. *)
Fixpoint dict_set {V : Type} (k : string) (v : V) (d : dict V) : dict V :=
  match d with
  | [] => [(k, v)]
  | (k', v') :: d' =>
      if String.eqb k k' then (k', v) :: d' else (k', v') :: dict_set k v d'
  end.

(** [d.get(k, default)] *)
Definition dict_get_default {V : Type} (k : string) (default : V)
  (d : dict V) : V :=
  match dict_get k d with
  | Some v => v
  | None => default
  end.

(** ** Numbers *)

(** [bool(x)] of a float: false exactly at zero. *)
Definition truthy (x : Q) : bool := negb (Z.eqb (Qnum x) 0).

Definition Qltb (x y : Q) : bool := negb (Qle_bool y x).

(** [sum(l)] *)
Definition sum (l : list Q) : Q := fold_left Qplus l 0.

(** [max(l)]: the first of the largest items; [ValueError] on []. *)
Definition py_max (l : list Q) : result Q :=
  match l with
  | [] => Raise ValueError
  | x :: l' => Ok (fold_left (fun m y => if Qltb m y then y else m) l' x)
  end.

(** [min(l)]: the first of the smallest items; [ValueError] on []. *)
Definition py_min (l : list Q) : result Q :=
  match l with
  | [] => Raise ValueError
  | x :: l' => Ok (fold_left (fun m y => if Qltb y m then y else m) l' x)
  end.

(** A stable sort on a key, as [sorted] and [list.sort] are: [x] goes
    before the first item that is not smaller than it. *)
Fixpoint insert_by {A : Type} (ltb : A -> A -> bool) (x : A) (l : list A)
  : list A :=
  match l with
  | [] => [x]
  | y :: l' => if ltb y x then y :: insert_by ltb x l' else x :: y :: l'
  end.

Fixpoint sort_by {A : Type} (ltb : A -> A -> bool) (l : list A) : list A :=
  match l with
  | [] => []
  | x :: l' => insert_by ltb x (sort_by ltb l')
  end.

Definition sorted (l : list Q) : list Q := sort_by Qltb l.

(** [statistics.mean] *)
Definition statistics_mean (l : list Q) : result Q :=
  match l with
  | [] => Raise StatisticsError
  | _ => Ok (sum l / inject_Z (Z.of_nat (List.length l)))
  end.

(** [statistics.median]: the middle item of the sorted data, or the mean
    of the two middle items. *)
Definition statistics_median (l : list Q) : result Q :=
  let data := sorted l in
  let n := List.length data in
  if Nat.eqb n 0 then Raise StatisticsError
  else if Nat.eqb (n mod 2) 1 then Ok (nth (n / 2) data 0)
  else
    let i := (n / 2)%nat in
    Ok ((nth (i - 1) data 0 + nth i data 0) / 2).

Definition round_half_even (x : Q) : Z :=
  let f := Qfloor x in
  match Qcompare (x - inject_Z f) (1 # 2) with
  | Lt => f
  | Gt => (f + 1)%Z
  | Eq => if Z.even f then f else (f + 1)%Z
  end.

(** [round(x, ndigits)] *)
Definition round (x : Q) (ndigits : nat) : Q :=
  let p := (10 ^ Z.of_nat ndigits)%Z in
  Qred (round_half_even (x * inject_Z p) # Z.to_pos p).

(** ** Literals: the instances of [float] and [int] used on examples *)

Definition digit_of (c : ascii) : option Z :=
  let n := nat_of_ascii c in
  if Nat.leb 48 n && Nat.leb n 57 then Some (Z.of_nat (n - 48)) else None.

Definition is_char (k : nat) (c : ascii) : bool := Nat.eqb (nat_of_ascii c) k.

(** A digit part: digits, single underscores allowed between two digits.
    Returns the value and the number of digits.  [sep] says that a digit
    must come next. *)
Fixpoint digits_from (sep : bool) (acc : Z) (n : nat) (s : string)
  : option (Z * nat) :=
  match s with
  | EmptyString => if sep then None else Some (acc, n)
  | String c s' =>
      if is_char 95 c then
        if sep then None else digits_from true acc n s'
      else
        match digit_of c with
        | Some d => digits_from false (10 * acc + d)%Z (S n) s'
        | None => None
        end
  end.

Definition digitpart (s : string) : option (Z * nat) := digits_from true 0%Z 0%nat s.

(** Splits at the first character satisfying [p]; the character is kept
    out of both halves. *)
Fixpoint break_at (p : ascii -> bool) (s : string) : string * option string :=
  match s with
  | EmptyString => (EmptyString, None)
  | String c s' =>
      if p c then (EmptyString, Some s')
      else let '(a, b) := break_at p s' in (String c a, b)
  end.

(** An optional sign: [true] for minus. *)
Definition strip_sign (s : string) : bool * string :=
  match s with
  | String c s' =>
      if is_char 45 c then (true, s')
      else if is_char 43 c then (false, s')
      else (false, s)
  | EmptyString => (false, s)
  end.

(** [int(s)] on a decimal literal. *)
Definition int_literal (s : string) : option Z :=
  let '(neg, body) := strip_sign s in
  match digitpart body with
  | Some (v, _) => Some (if neg then (- v)%Z else v)
  | None => None
  end.

Definition pow10 (e : Z) : Q :=
  if (0 <=? e)%Z then inject_Z (10 ^ e) else 1 # Z.to_pos (10 ^ (- e)).

(** The mantissa [digits] or [digits.] or [.digits] or [digits.digits]. *)
Definition mantissa (s : string) : option Q :=
  match break_at (is_char 46) s with
  | (ip, None) =>
      match digitpart ip with
      | Some (v, _) => Some (inject_Z v)
      | None => None
      end
  | (ip, Some fp) =>
      match ip, fp with
      | EmptyString, EmptyString => None
      | _, EmptyString =>
          match digitpart ip with
          | Some (v, _) => Some (inject_Z v)
          | None => None
          end
      | EmptyString, _ =>
          match digitpart fp with
          | Some (w, k) => Some (w # Z.to_pos (10 ^ Z.of_nat k))
          | None => None
          end
      | _, _ =>
          match digitpart ip, digitpart fp with
          | Some (v, _), Some (w, k) =>
              Some (inject_Z v + (w # Z.to_pos (10 ^ Z.of_nat k)))
          | _, _ => None
          end
      end
  end.

(** [float(s)] on a finite decimal literal, with an optional exponent,
    for the examples: it gives the exact value of the decimal where
    [float] gives the nearest double, and it reads neither [inf] nor
    [nan].  The theorems take [float] as a parameter. *)
Definition float_literal (s : string) : option Q :=
  let '(neg, body) := strip_sign s in
  let '(m, e) := break_at (fun c => is_char 101 c || is_char 69 c) body in
  match mantissa m with
  | None => None
  | Some q =>
      let signed := if neg then - q else q in
      match e with
      | None => Some (Qred signed)
      | Some es =>
          let '(eneg, ebody) := strip_sign es in
          match digitpart ebody with
          | Some (ev, _) =>
              Some (Qred (signed * pow10 (if eneg then (- ev)%Z else ev)))
          | None => None
          end
      end
  end.

(** ** The records of the program *)

(** A host sighting [[host, part]]: the token before an address, and the
    address token with its parentheses. *)
Definition host_pair : Type := (string * string)%type.

(** [class TracerouteOutput]: one hop of one run. *)
Record TracerouteOutput : Type := {
  avg : option Q;
  hop : string;
  hosts : list host_pair;
  maximum : option Q;
  median : option Q;
  minimum : option Q
}.

(** The value of [hop_data[hop]]: what the runs contributed to one hop.
    [result.avg] is only appended when it is a non-zero number; the other
    three fields are appended as they are, [None] included. *)
Record HopData : Type := {
  acc_avg : list Q;
  acc_max : list (option Q);
  acc_med : list (option Q);
  acc_min : list (option Q);
  acc_hosts : list (list host_pair)
}.

(** The dict [hop_stats]: the aggregate of one hop. *)
Record HopStats : Type := {
  s_avg : option Q;
  s_hop : string;
  s_hosts : list (list host_pair);
  s_max : option Q;
  s_med : option Q;
  s_min : option Q
}.

Definition empty_hop_data : HopData :=
  {| acc_avg := []; acc_max := []; acc_med := []; acc_min := [];
     acc_hosts := [] |}.

(** The numbers of a list that is handed to [max], [min] or
    [statistics.median] and then to [round]: a [None] among them ends in
    a [TypeError], from the comparison or from [round(None, 3)]. *)
Fixpoint floats_of (l : list (option Q)) : result (list Q) :=
  match l with
  | [] => Ok []
  | Some x :: l' => xs <- floats_of l' ;; Ok (x :: xs)
  | None :: _ => Raise TypeError
  end.

(** [parts[1:4] == ["*"] * 3] *)
Definition is_timeout (parts : list string) : bool :=
  list_string_eqb (firstn 3 (skipn 1 parts)) ["*"; "*"; "*"].

Definition is_address (part : string) : bool :=
  contains "(" part && contains ")" part.

Definition is_latency (part : string) : bool :=
  negb (is_address part) && contains "ms" part.

Section Trstats.

(** [float(s)] and [int(s)]; [None] is [ValueError]. *)
Variable py_float : string -> option Q.
Variable py_int : string -> option Z.

(** *** parse_traceroute_output *)

(** One turn of [for i in range(1, len(parts))]. *)
Definition scan_step (parts : list string) (i : nat)
  (st : list Q * list host_pair) : list Q * list host_pair :=
  let '(times, hosts) := st in
  let part := nth i parts "" in
  if contains "(" part && contains ")" part then
    let host := nth (i - 1) parts "" in
    (times, hosts ++ [(host, part)])%list
  else if contains "ms" part then
    match py_float (nth (i - 1) parts "") with
    | Some t => ((times ++ [t])%list, hosts)
    | None => (times, hosts)
    end
  else (times, hosts).

Definition scan (parts : list string) : list Q * list host_pair :=
  fold_left (fun st i => scan_step parts i st)
    (seq 1 (List.length parts - 1)) ([], []).

(** One turn of [for hop in hops], on the output list and the latency
    collector. *)
Definition parse_hop (hop : string)
  (st : list TracerouteOutput * dict (list Q))
  : result (list TracerouteOutput * dict (list Q)) :=
  let '(parsed_output, latencies_per_hop) := st in
  let parts := split hop in
  match parts with
  | [] => Raise IndexError
  | hop_number :: _ =>
      if is_timeout parts then
        Ok ((parsed_output ++
              [{| avg := None; hop := hop_number; hosts := [];
                  maximum := None; median := None; minimum := None |}])%list,
            latencies_per_hop)
      else
        let '(times, hosts) := scan parts in
        match times with
        | [] => Ok (parsed_output, latencies_per_hop)
        | _ :: _ =>
            let avg :=
              round (sum times / inject_Z (Z.of_nat (List.length times))) 2 in
            maximum <- py_max times ;;
            minimum <- py_max times ;;
            median <- statistics_median times ;;
            let latencies_per_hop :=
              dict_set hop_number
                (dict_get_default hop_number [] latencies_per_hop ++ times)%list
                latencies_per_hop in
            Ok ((parsed_output ++
                  [{| avg := Some avg; hop := hop_number; hosts := hosts;
                      maximum := Some maximum; median := Some median;
                      minimum := Some minimum |}])%list,
                latencies_per_hop)
        end
  end.

Definition parse_traceroute_output (traceroute_data : string)
  (latencies_per_hop : dict (list Q))
  : result (list TracerouteOutput * dict (list Q)) :=
  let hops := skipn 1 (splitlines traceroute_data) in
  for_each parse_hop hops ([], latencies_per_hop).

(** *** get_statistics_per_hop *)

(** One turn of [for result in run]. *)
Definition add_result (hop_data : dict HopData) (result : TracerouteOutput)
  : dict HopData :=
  let hop := hop result in
  let hop_data :=
    if dict_mem hop hop_data then hop_data
    else dict_set hop empty_hop_data hop_data in
  match avg result with
  | Some a =>
      if truthy a then
        let data := dict_get_default hop empty_hop_data hop_data in
        dict_set hop
          {| acc_avg := acc_avg data ++ [a];
             acc_max := acc_max data ++ [maximum result];
             acc_med := acc_med data ++ [median result];
             acc_min := acc_min data ++ [minimum result];
             acc_hosts := acc_hosts data ++ [hosts result] |}%list
          hop_data
      else hop_data
  | None => hop_data
  end.

Definition group_by_hop (cumulative_data : list (list TracerouteOutput))
  : dict HopData :=
  fold_left (fun hop_data run => fold_left add_result run hop_data)
    cumulative_data [].

(** One turn of [for hop, data in hop_data.items()]. *)
Definition hop_stats (item : string * HopData) : result HopStats :=
  let '(hop, data) := item in
  avg <- match acc_avg data with
         | [] => Ok None
         | l => m <- statistics_mean l ;; Ok (Some (round m 3))
         end ;;
  max <- match acc_max data with
         | [] => Ok None
         | l => xs <- floats_of l ;; m <- py_max xs ;; Ok (Some (round m 3))
         end ;;
  med <- match acc_med data with
         | [] => Ok None
         | l => xs <- floats_of l ;; m <- statistics_median xs ;;
                Ok (Some (round m 3))
         end ;;
  min <- match acc_min data with
         | [] => Ok None
         | l => xs <- floats_of l ;; m <- py_min xs ;; Ok (Some (round m 3))
         end ;;
  Ok {| s_avg := avg; s_hop := hop; s_hosts := acc_hosts data;
        s_max := max; s_med := med; s_min := min |}.

(** [l.sort(key=lambda x: int(x['hop']))]: the keys are computed first,
    then the items are sorted on them, equal keys keeping their order. *)
Definition sort_by_hop (l : list HopStats) : result (list HopStats) :=
  keyed <- map_result
             (fun x => match py_int (s_hop x) with
                       | Some k => Ok (k, x)
                       | None => Raise ValueError
                       end) l ;;
  Ok (map snd (sort_by (fun a b => Z.ltb (fst a) (fst b)) keyed)).

Definition get_statistics_per_hop
  (cumulative_data : list (list TracerouteOutput)) : result (list HopStats) :=
  let hop_data := group_by_hop cumulative_data in
  stats_by_hop <- map_result hop_stats hop_data ;;
  sort_by_hop stats_by_hop.

(** *** use_test_directory, on the contents of the files *)

Definition use_test_directory (files : list string)
  : result (list (list TracerouteOutput) * dict (list Q)) :=
  for_each
    (fun text st =>
       let '(cumulative_data, latencies_per_hop) := st in
       r <- parse_traceroute_output text latencies_per_hop ;;
       Ok ((cumulative_data ++ [fst r])%list, snd r))
    files ([], []).

(** The [--test] branch of [unwrap_arguments]: parse every file, then
    aggregate. *)
Definition trstats (files : list string) : result (list HopStats) :=
  r <- use_test_directory files ;;
  get_statistics_per_hop (fst r).

End Trstats.

(** ** Vocabulary of the statements *)

(** [if result.avg:] holds: the record is added to the accumulators. *)
Definition contributes (r : TracerouteOutput) : bool :=
  match avg r with
  | Some a => truthy a
  | None => false
  end.

Definition at_hop (h : string) (r : TracerouteOutput) : bool :=
  String.eqb (hop r) h.

(** The records of hop [h], in run order and then in line order. *)
Definition records_at (h : string) (cumulative_data : list (list TracerouteOutput))
  : list TracerouteOutput :=
  filter (at_hop h) (List.concat cumulative_data).

Definition contributions (h : string)
  (cumulative_data : list (list TracerouteOutput)) : list TracerouteOutput :=
  filter contributes (records_at h cumulative_data).

Definition is_some {A : Type} (o : option A) : bool :=
  match o with
  | Some _ => true
  | None => false
  end.

Definition complete (r : TracerouteOutput) : bool :=
  is_some (maximum r) && is_some (median r) && is_some (minimum r).

(** The inputs on which [get_statistics_per_hop] raises nothing: every
    hop is read by [int], and a record that is added to the accumulators
    has its three other numbers. *)
Definition aggregable (py_int : string -> option Z)
  (cumulative_data : list (list TracerouteOutput)) : bool :=
  forallb (fun r => is_some (py_int (hop r)) &&
                    implb (contributes r) (complete r))
    (List.concat cumulative_data).

(** What the accumulator of hop [h] holds after the records [xs]. *)
Definition acc_of (h : string) (xs : list TracerouteOutput) : HopData :=
  let cs := filter contributes (filter (at_hop h) xs) in
  {| acc_avg := flat_map (fun r => match avg r with
                                   | Some a => [a]
                                   | None => []
                                   end) cs;
     acc_max := map maximum cs;
     acc_med := map median cs;
     acc_min := map minimum cs;
     acc_hosts := map hosts cs |}.

Definition null_stats (h : string) : HopStats :=
  {| s_avg := None; s_hop := h; s_hosts := []; s_max := None;
     s_med := None; s_min := None |}.

Definition all_null (r : TracerouteOutput) : Prop :=
  avg r = None /\ maximum r = None /\ median r = None /\ minimum r = None.

Definition all_set (r : TracerouteOutput) : Prop :=
  avg r <> None /\ maximum r <> None /\ median r <> None /\
  minimum r <> None.

(** The order of the output: by [int] of the hop. *)
Definition hop_le (py_int : string -> option Z) (a b : HopStats) : Prop :=
  match py_int (s_hop a), py_int (s_hop b) with
  | Some x, Some y => (x <= y)%Z
  | _, _ => False
  end.

Definition hop_lt (py_int : string -> option Z) (a b : HopStats) : Prop :=
  match py_int (s_hop a), py_int (s_hop b) with
  | Some x, Some y => (x < y)%Z
  | _, _ => False
  end.

(** The record of a line on which every probe timed out. *)
Definition timeout_record (h : string) : TracerouteOutput :=
  {| avg := None; hop := h; hosts := []; maximum := None; median := None;
     minimum := None |}.

(** The record of a line with the samples [times]: as the parser computes
    it, the largest sample is stored twice. *)
Definition sample_record (times : list Q) (r : TracerouteOutput) : Prop :=
  times <> [] /\
  avg r = Some (round (sum times / inject_Z (Z.of_nat (List.length times))) 2) /\
  exists M med,
    py_max times = Ok M /\ statistics_median times = Ok med /\
    maximum r = Some M /\ minimum r = Some M /\ median r = Some med.

(** The sample that token [i] of a line adds to [times]: the number
    before a latency marker, when [float] reads it. *)
Definition sample_at (py_float : string -> option Q) (parts : list string)
  (i : nat) : list Q :=
  if is_latency (nth i parts "") then
    match py_float (nth (i - 1) parts "") with
    | Some t => [t]
    | None => []
    end
  else [].

Definition nonblank (line : string) : Prop := split line <> [].

(** The lines of a run after its header, and the hop token of a line. *)
Definition body_lines (text : string) : list string :=
  skipn 1 (splitlines text).

Definition first_token (line : string) : string := hd "" (split line).

Definition nl : string := String (ascii_of_nat 10) "".

(** ** Sample inputs *)

Definition header : string :=
  "traceroute to example.net (93.184.216.34), 30 hops max, 60 byte packets".

(** The text of a run: the header line, then the given lines. *)
Definition text_of (lines : list string) : string :=
  header ++ nl ++ String.concat nl lines ++ nl.

Definition scenario_line : string :=
  " 5  192.168.1.1 (192.168.1.1)  1.234 ms  1.456 ms  1.789 ms".

Definition timeout_line : string := " 3  * * *".

Definition hosts_only_line : string := " 7  r.example.net (10.0.0.7)".

Definition zero_avg_line : string :=
  " 1  localhost (127.0.0.1)  0.001 ms  0.002 ms  0.003 ms".

Definition two_hosts_line : string :=
  " 2  a.example.net (10.0.0.1)  1.000 ms  b.example.net (10.0.0.2)  2.000 ms  3.000 ms".

Definition long_sample_line : string := " 4  gw.example.net (10.0.0.4)  1.2346 ms".

Definition bad_token_line : string :=
  " 6  gw.example.net (10.0.0.6)  1.000 ms  x.y ms  3.000 ms".

Definition hop_1_line : string := " 1  a.example.net (10.0.0.1)  1.000 ms".

Definition hop_01_line : string := "01  b.example.net (10.0.0.2)  2.000 ms".

Definition hop_10_line : string := "10  c.example.net (10.0.0.3)  3.000 ms".

Definition hop_2_line : string := " 2  d.example.net (10.0.0.5)  4.000 ms".

(** Two runs: hops 10, 2, 3 (timed out) and 4, then hops 2, 3 (timed out),
    10 and 1. *)
Definition sample_files : list string :=
  [text_of [hop_10_line; two_hosts_line; timeout_line; long_sample_line];
   text_of [hop_2_line; timeout_line; hop_10_line; zero_avg_line]].

Definition sample_runs : list (list TracerouteOutput) :=
  Eval vm_compute in
    match use_test_directory float_literal sample_files with
    | Ok r => fst r
    | Raise _ => []
    end.

(** ** The callers: running traceroute, the figure, the command line *)

(** [bool(s)] of an optional string: [None] and the empty string are
    false. *)
Definition str_truthy (o : option string) : bool :=
  match o with
  | Some (String _ _) => true
  | _ => false
  end.

(** [a if a else default] on an optional string. *)
Definition str_or (o : option string) (default : string) : string :=
  match o with
  | Some (String c s) => String c s
  | _ => default
  end.

(** One [pogo.Box] trace of the figure. *)
Record Box : Type := {
  box_y : list Q;
  box_name : string;
  box_boxpoints : string;
  box_jitter : Q;
  box_pointpos : Q
}.

(** What [save_latency_distribution_boxplot_pdf] hands to plotly: the
    traces, the layout and the path of the image. *)
Record Figure : Type := {
  fig_traces : list Box;
  fig_title : string;
  fig_xaxis_title : string;
  fig_yaxis_title : string;
  fig_showlegend : bool;
  fig_path : string
}.

(** The parsed command line. *)
Record Args : Type := {
  num_runs : Z;
  run_delay : Z;
  max_hops : option Z;
  output : option string;
  graph : option string;
  target : option string;
  test : option string
}.

(** The files a run of the program has written. *)
Record Written : Type := {
  json_file : option (string * list HopStats);
  pdf_file : option Figure
}.

(** How [unwrap_arguments] ends: [argument_parser.error] leaves the
    program, or it returns, or an exception escapes; the last two with the
    files written so far. *)
Inductive run_end : Type :=
| UsageError
| Finished (w : Written)
| Uncaught (e : exn) (w : Written).

Section Callers.

Variable py_float : string -> option Q.
Variable py_int : string -> option Z.

(** [time.sleep(secs)]: it returns after the delay, or raises (the
    [ValueError] of a negative delay, the [OverflowError] of one that is
    too long). *)
Variable py_sleep : Z -> result unit.

(** *** execute_traceroute

    [subroutine i] is what [execute_traceroute_subroutine] returns in
    turn [i] of the loop: the standard output of traceroute, or [None]
    when the process failed.  After every turn but the last the loop
    sleeps for [run_delay] seconds. *)
Definition execute_traceroute (subroutine : nat -> option string)
  (num_runs run_delay : Z)
  : result (list (list TracerouteOutput) * dict (list Q)) :=
  for_each
    (fun i st =>
       st' <- (let '(cumulative_data, latencies_per_hop) := st in
               match subroutine i with
               | Some (String c s) =>
                   r <- parse_traceroute_output py_float (String c s)
                          latencies_per_hop ;;
                   Ok ((cumulative_data ++ [fst r])%list, snd r)
               | _ => Ok (cumulative_data, latencies_per_hop)
               end) ;;
       if (Z.of_nat i <? num_runs - 1)%Z
       then _ <- py_sleep run_delay ;; Ok st'
       else Ok st')
    (seq 0 (Z.to_nat num_runs)) ([], []).

(** *** save_latency_distribution_boxplot_pdf *)

(** [sorted(hop_data, key=lambda x: int(x))] *)
Definition sorted_hops (hop_data : dict (list Q)) : result (list string) :=
  keyed <- map_result
             (fun k => match py_int k with
                       | Some n => Ok (n, k)
                       | None => Raise ValueError
                       end) (map fst hop_data) ;;
  Ok (map snd (sort_by (fun a b => Z.ltb (fst a) (fst b)) keyed)).

Definition save_latency_distribution_boxplot_pdf (hop_data : dict (list Q))
  (args : Args) : result Figure :=
  ks <- sorted_hops hop_data ;;
  let hop_data :=
    fold_left (fun d k => dict_set k (dict_get_default k [] hop_data) d)
      ks [] in
  let traces :=
    map (fun item : string * list Q =>
           {| box_y := snd item; box_name := "Hop " ++ fst item;
              box_boxpoints := "all"; box_jitter := 1 # 2;
              box_pointpos := - (18 # 10) |}) hop_data in
  Ok {| fig_traces := traces;
        fig_title := "Latency Distribution per Hop " ++
                     (if str_truthy (target args)
                      then "for Domain: " ++ str_or (target args) ""
                      else "");
        fig_xaxis_title := "Hop";
        fig_yaxis_title := "Latency (ms)";
        fig_showlegend := true;
        fig_path := str_or (graph args) "./trstats.pdf" |}.

(** *** unwrap_arguments

    [files] holds the contents of the files of the [--test] directory, in
    the order [os.listdir] gives them. *)
Definition unwrap_arguments (args : Args) (files : list string)
  (subroutine : nat -> option string) : run_end :=
  let nothing := {| json_file := None; pdf_file := None |} in
  let gathered :=
    if str_truthy (test args) then
      Some (r <- use_test_directory py_float files ;;
            stats_per_hop <- get_statistics_per_hop py_int (fst r) ;;
            Ok (stats_per_hop, snd r))
    else if negb (str_truthy (target args)) then None
    else
      Some (r <- execute_traceroute subroutine (num_runs args)
                   (run_delay args) ;;
            stats_per_hop <- get_statistics_per_hop py_int (fst r) ;;
            Ok (stats_per_hop, snd r)) in
  match gathered with
  | None => UsageError
  | Some (Raise e) => Uncaught e nothing
  | Some (Ok (stats_per_hop, latencies_per_hop)) =>
      let json :=
        match stats_per_hop with
        | [] => None
        | _ :: _ => Some (str_or (output args) "./trstats.json", stats_per_hop)
        end in
      match latencies_per_hop with
      | [] => Finished {| json_file := json; pdf_file := None |}
      | _ :: _ =>
          match save_latency_distribution_boxplot_pdf latencies_per_hop args
          with
          | Ok fig => Finished {| json_file := json; pdf_file := Some fig |}
          | Raise e => Uncaught e {| json_file := json; pdf_file := None |}
          end
      end
  end.

End Callers.

(** ** Vocabulary of the further statements *)

Fixpoint no_linebreak (s : string) : bool :=
  match s with
  | EmptyString => true
  | String c s' => negb (is_linebreak c) && no_linebreak s'
  end.

(** The line gives a record: it is a timeout line or it has a sample. *)
Definition emits (py_float : string -> option Q) (line : string) : bool :=
  is_timeout (split line) ||
  match fst (scan py_float (split line)) with
  | [] => false
  | _ :: _ => true
  end.

(** The samples that a line adds to the collector entry of hop [h]. *)
Definition samples_for (py_float : string -> option Q) (h line : string)
  : list Q :=
  if String.eqb (first_token line) h && negb (is_timeout (split line))
  then fst (scan py_float (split line))
  else [].


(** The outputs of the runs that are parsed: the non-empty ones. *)
Definition successful_outputs (subroutine : nat -> option string)
  (num_runs : Z) : list string :=
  flat_map (fun i => match subroutine i with
                     | Some (String c s) => [String c s]
                     | _ => []
                     end) (seq 0 (Z.to_nat num_runs)).

(** The order of hop strings by [int]. *)
Definition key_le (py_int : string -> option Z) (a b : string) : Prop :=
  match py_int a, py_int b with
  | Some x, Some y => (x <= y)%Z
  | _, _ => False
  end.

(** The trace of hop [k] in the figure. *)
Definition trace_of (hop_data : dict (list Q)) (k : string) : Box :=
  {| box_y := dict_get_default k [] hop_data; box_name := "Hop " ++ k;
     box_boxpoints := "all"; box_jitter := 1 # 2;
     box_pointpos := - (18 # 10) |}.

Definition nothing_written : Written :=
  {| json_file := None; pdf_file := None |}.

(** The collector and the aggregates of the sample runs. *)
Definition sample_collector : dict (list Q) :=
  Eval vm_compute in
    match use_test_directory float_literal sample_files with
    | Ok r => snd r
    | Raise _ => []
    end.

Definition sample_stats : list HopStats :=
  Eval vm_compute in
    match get_statistics_per_hop int_literal sample_runs with
    | Ok out => out
    | Raise _ => []
    end.

(** [time.sleep] for the examples: CPython refuses a delay of more than
    2^63 nanoseconds, then a negative one. *)
Definition sleep_literal (secs : Z) : result unit :=
  if (Z.abs secs >? 9223372036)%Z then Raise OverflowError
  else if (secs <? 0)%Z then Raise ValueError
  else Ok tt.

(** The hop strings of a list in the order of their first appearance. *)
Fixpoint first_appearance (l : list string) : list string :=
  match l with
  | [] => []
  | h :: l' => h :: remove string_dec h (first_appearance l')
  end.

(** [int(h) == n] *)
Definition hop_number_is (py_int : string -> option Z) (n : Z) (h : string)
  : bool :=
  match py_int h with
  | Some k => Z.eqb k n
  | None => false
  end.

(** A bound under which the sum of two doubles is a double. *)
Definition sum_safe : Q := inject_Z (2 ^ 1022).

(** A hop with two probes, both timed out. *)
Definition two_probe_timeout_line : string := " 6  * *".

Definition test_args : Args :=
  {| num_runs := 1; run_delay := 0; max_hops := None; output := None;
     graph := None; target := None; test := Some "runs" |}.

Definition sample_subroutine (i : nat) : option string :=
  match i with
  | 0%nat => Some (text_of [hop_10_line; two_hosts_line; timeout_line;
                            long_sample_line])
  | 1%nat => None
  | 2%nat => Some ""
  | _ => Some (text_of [hop_2_line; timeout_line; hop_10_line;
                        zero_avg_line])
  end.

(** ** The error monad and the loops *)

Lemma bind_Ok_inv {A B : Type} (m : result A) (k : A -> result B) (b : B) :
  bind m k = Ok b -> exists a, m = Ok a /\ k a = Ok b.
Proof. destruct m as [a|e]; simpl; [eauto | discriminate]. Qed.

Lemma for_each_app {A S : Type} (body : A -> S -> result S) (l1 l2 : list A)
  (st : S) :
  for_each body (l1 ++ l2) st =
  bind (for_each body l1 st) (for_each body l2).
Proof.
  revert st; induction l1 as [|x l1 IH]; intros st; simpl; [reflexivity|].
  destruct (body x st) as [st'|e]; simpl; [apply IH | reflexivity].
Qed.

Lemma for_each_invariant {A S : Type} (body : A -> S -> result S)
  (P : S -> Prop) :
  (forall x st st', P st -> body x st = Ok st' -> P st') ->
  forall l st st', P st -> for_each body l st = Ok st' -> P st'.
Proof.
  intros Hstep l; induction l as [|x l IH]; intros st st' HP H; simpl in H.
  - now inversion H; subst.
  - apply bind_Ok_inv in H as (st1 & H1 & H2). eauto.
Qed.

Lemma for_each_total {A S : Type} (body : A -> S -> result S)
  (G : A -> Prop) :
  (forall x st, G x -> exists st', body x st = Ok st') ->
  forall l st, Forall G l -> exists st', for_each body l st = Ok st'.
Proof.
  intros Hstep l; induction l as [|x l IH]; intros st HG; simpl.
  - eauto.
  - inversion HG; subst.
    destruct (Hstep x st) as (st1 & ->); [assumption|]. simpl. now apply IH.
Qed.

Lemma map_result_Forall2 {A B : Type} (f : A -> result B) (l : list A)
  (ys : list B) :
  map_result f l = Ok ys <-> Forall2 (fun x y => f x = Ok y) l ys.
Proof.
  revert ys; induction l as [|x l IH]; intros ys; simpl; split; intros H.
  - inversion H; constructor.
  - now inversion H.
  - apply bind_Ok_inv in H as (y & Hy & H).
    apply bind_Ok_inv in H as (ys' & Hys & H). inversion H; subst.
    constructor; [assumption | now apply IH].
  - inversion H as [|? y ? ys' Hy Hys]; subst. rewrite Hy; simpl.
    apply IH in Hys. now rewrite Hys.
Qed.

Lemma map_result_total {A B : Type} (f : A -> result B) (l : list A) :
  (forall x, In x l -> exists y, f x = Ok y) ->
  exists ys, map_result f l = Ok ys.
Proof.
  induction l as [|x l IH]; intros H; simpl; [eauto|].
  destruct (H x) as (y & ->); [now left|]. simpl.
  destruct IH as (ys & ->); [intros; apply H; now right|]. simpl. eauto.
Qed.

(** ** Dicts *)

Lemma dict_get_set_same {V : Type} (k : string) (v : V) (d : dict V) :
  dict_get k (dict_set k v d) = Some v.
Proof.
  induction d as [|[k' v'] d IH]; simpl.
  - now rewrite String.eqb_refl.
  - destruct (String.eqb k k') eqn:E; simpl; rewrite E; [reflexivity | exact IH].
Qed.

Lemma dict_get_set_other {V : Type} (k k0 : string) (v : V) (d : dict V) :
  k0 <> k -> dict_get k0 (dict_set k v d) = dict_get k0 d.
Proof.
  intros Hne; induction d as [|[k' v'] d IH]; simpl.
  - apply String.eqb_neq in Hne. now rewrite Hne.
  - destruct (String.eqb k k') eqn:E; simpl.
    + apply String.eqb_eq in E; subst k'.
      apply String.eqb_neq in Hne. now rewrite Hne.
    + now rewrite IH.
Qed.

Lemma dict_keys_set {V : Type} (k : string) (v : V) (d : dict V) :
  map fst (dict_set k v d) =
  if dict_mem k d then map fst d else (map fst d ++ [k])%list.
Proof.
  unfold dict_mem; induction d as [|[k' v'] d IH]; simpl; [reflexivity|].
  destruct (String.eqb k k') eqn:E; simpl; [reflexivity|].
  rewrite IH. now destruct (dict_get k d).
Qed.

Lemma dict_get_In {V : Type} (k : string) (d : dict V) :
  In k (map fst d) <-> dict_get k d <> None.
Proof.
  induction d as [|[k' v'] d IH]; simpl; [tauto|].
  destruct (String.eqb k k') eqn:E.
  - apply String.eqb_eq in E; subst. split; [discriminate | now left].
  - apply String.eqb_neq in E. rewrite <- IH. split; [|tauto].
    intros [H|H]; [congruence | exact H].
Qed.

Lemma dict_get_NoDup {V : Type} (k : string) (v : V) (d : dict V) :
  NoDup (map fst d) -> In (k, v) d -> dict_get k d = Some v.
Proof.
  induction d as [|[k' v'] d IH]; simpl; intros Hnd Hin; [contradiction|].
  inversion Hnd as [|? ? Hnotin Hnd']; subst.
  destruct Hin as [Heq|Hin].
  - inversion Heq; subst. now rewrite String.eqb_refl.
  - destruct (String.eqb k k') eqn:E; [|now apply IH].
    apply String.eqb_eq in E; subst k'. exfalso; apply Hnotin.
    change k with (fst (k, v)). now apply in_map.
Qed.

Lemma dict_get_Some_In {V : Type} (k : string) (v : V) (d : dict V) :
  dict_get k d = Some v -> In (k, v) d.
Proof.
  induction d as [|[k' v'] d IH]; simpl; [discriminate|].
  destruct (String.eqb k k') eqn:E; intros H.
  - apply String.eqb_eq in E; inversion H; subst. now left.
  - right; now apply IH.
Qed.

(** ** Grouping by hop *)

Lemma add_result_get_other (d : dict HopData) (r : TracerouteOutput)
  (h : string) :
  h <> hop r -> dict_get h (add_result d r) = dict_get h d.
Proof.
  intros Hne. unfold add_result.
  assert (H0 : dict_get h (if dict_mem (hop r) d then d
                           else dict_set (hop r) empty_hop_data d)
               = dict_get h d).
  { destruct (dict_mem (hop r) d); [reflexivity|].
    now apply dict_get_set_other. }
  destruct (avg r) as [a|]; [|exact H0].
  destruct (truthy a); [|exact H0].
  rewrite dict_get_set_other by assumption. exact H0.
Qed.

Lemma add_result_get_same (d : dict HopData) (r : TracerouteOutput) :
  dict_get (hop r) (add_result d r) =
  Some (let data := dict_get_default (hop r) empty_hop_data d in
        match avg r with
        | Some a =>
            if truthy a then
              {| acc_avg := acc_avg data ++ [a];
                 acc_max := acc_max data ++ [maximum r];
                 acc_med := acc_med data ++ [median r];
                 acc_min := acc_min data ++ [minimum r];
                 acc_hosts := acc_hosts data ++ [hosts r] |}%list
            else data
        | None => data
        end).
Proof.
  unfold add_result, dict_mem, dict_get_default.
  destruct (dict_get (hop r) d) as [v|] eqn:E.
  - rewrite E. destruct (avg r) as [a|]; [|exact E].
    destruct (truthy a); [|exact E]. apply dict_get_set_same.
  - rewrite dict_get_set_same.
    destruct (avg r) as [a|]; [|apply dict_get_set_same].
    destruct (truthy a); apply dict_get_set_same.
Qed.

Lemma add_result_keys (d : dict HopData) (r : TracerouteOutput) :
  map fst (add_result d r) =
  if dict_mem (hop r) d then map fst d else (map fst d ++ [hop r])%list.
Proof.
  unfold add_result.
  set (d1 := if dict_mem (hop r) d then d
             else dict_set (hop r) empty_hop_data d).
  assert (Hmem : dict_mem (hop r) d1 = true).
  { unfold d1, dict_mem. destruct (dict_get (hop r) d) eqn:E.
    - now rewrite E.
    - now rewrite dict_get_set_same. }
  assert (Hk : map fst d1 =
               if dict_mem (hop r) d then map fst d
               else (map fst d ++ [hop r])%list).
  { unfold d1. destruct (dict_mem (hop r) d) eqn:E; [reflexivity|].
    rewrite dict_keys_set. now rewrite E. }
  destruct (avg r) as [a|]; [|exact Hk].
  destruct (truthy a); [|exact Hk].
  rewrite dict_keys_set, Hmem. exact Hk.
Qed.

Lemma filter_at_hop_none (h : string) (xs : list TracerouteOutput) :
  existsb (at_hop h) xs = false -> filter (at_hop h) xs = [].
Proof.
  induction xs as [|x xs IH]; simpl; [reflexivity|].
  destruct (at_hop h x); simpl; [discriminate | exact IH].
Qed.

Lemma acc_of_snoc_other (h : string) (xs : list TracerouteOutput)
  (x : TracerouteOutput) :
  at_hop h x = false -> acc_of h (xs ++ [x]) = acc_of h xs.
Proof.
  intros H. unfold acc_of. rewrite filter_app. simpl. rewrite H.
  now rewrite app_nil_r.
Qed.

Lemma acc_of_snoc_same (h : string) (xs : list TracerouteOutput)
  (x : TracerouteOutput) :
  at_hop h x = true ->
  acc_of h (xs ++ [x]) =
  match avg x with
  | Some a =>
      if truthy a then
        {| acc_avg := acc_avg (acc_of h xs) ++ [a];
           acc_max := acc_max (acc_of h xs) ++ [maximum x];
           acc_med := acc_med (acc_of h xs) ++ [median x];
           acc_min := acc_min (acc_of h xs) ++ [minimum x];
           acc_hosts := acc_hosts (acc_of h xs) ++ [hosts x] |}%list
      else acc_of h xs
  | None => acc_of h xs
  end.
Proof.
  intros H. unfold acc_of. rewrite !filter_app. simpl. rewrite H. simpl.
  assert (Hc : contributes x = match avg x with
                               | Some a => truthy a
                               | None => false
                               end) by reflexivity.
  destruct (avg x) as [a|] eqn:Ea; [destruct (truthy a) eqn:Et|];
    rewrite Hc; simpl; rewrite ?app_nil_r; try reflexivity.
  rewrite flat_map_app, !map_app. simpl. rewrite Ea. reflexivity.
Qed.

Lemma fold_add_result_get (xs : list TracerouteOutput) (h : string) :
  dict_get h (fold_left add_result xs []) =
  if existsb (at_hop h) xs then Some (acc_of h xs) else None.
Proof.
  induction xs as [|x xs IH] using rev_ind; [reflexivity|].
  rewrite fold_left_app, existsb_app. simpl. rewrite orb_false_r.
  destruct (at_hop h x) eqn:E.
  - rewrite orb_true_r. unfold at_hop in E. apply String.eqb_eq in E.
    subst h. rewrite add_result_get_same. f_equal.
    rewrite acc_of_snoc_same by apply String.eqb_refl.
    assert (Hd : dict_get_default (hop x) empty_hop_data
                   (fold_left add_result xs []) = acc_of (hop x) xs).
    { unfold dict_get_default. rewrite IH.
      destruct (existsb (at_hop (hop x)) xs) eqn:Ex; [reflexivity|].
      unfold acc_of. now rewrite filter_at_hop_none. }
    cbv zeta. now rewrite Hd.
  - rewrite orb_false_r, add_result_get_other, IH.
    + now rewrite acc_of_snoc_other.
    + unfold at_hop in E. apply String.eqb_neq in E. congruence.
Qed.

Lemma fold_add_result_NoDup (xs : list TracerouteOutput) :
  NoDup (map fst (fold_left add_result xs [])).
Proof.
  induction xs as [|x xs IH] using rev_ind; [constructor|].
  rewrite fold_left_app. simpl. rewrite add_result_keys.
  destruct (dict_mem (hop x) (fold_left add_result xs [])) eqn:E;
    [exact IH|].
  apply NoDup_app; [exact IH | repeat constructor; intros [] |].
  intros k Hk [<-|[]]. apply dict_get_In in Hk.
  unfold dict_mem in E. now destruct (dict_get (hop x) _).
Qed.

Lemma group_by_hop_concat (cumulative_data : list (list TracerouteOutput)) :
  group_by_hop cumulative_data =
  fold_left add_result (List.concat cumulative_data) [].
Proof.
  unfold group_by_hop. generalize (@nil (string * HopData)).
  induction cumulative_data as [|run cd IH]; intros d; simpl;
    [reflexivity|].
  now rewrite fold_left_app, IH.
Qed.

(** The accumulator of every hop that occurs, and of no other. *)
Lemma group_by_hop_In (cumulative_data : list (list TracerouteOutput))
  (h : string) (data : HopData) :
  In (h, data) (group_by_hop cumulative_data) <->
  existsb (at_hop h) (List.concat cumulative_data) = true /\
  data = acc_of h (List.concat cumulative_data).
Proof.
  rewrite group_by_hop_concat.
  pose proof (fold_add_result_get (List.concat cumulative_data) h) as Hg.
  split.
  - intros Hin. apply dict_get_NoDup in Hin;
      [|apply fold_add_result_NoDup].
    rewrite Hin in Hg.
    destruct (existsb (at_hop h) _); [|discriminate].
    now inversion Hg.
  - intros [Hex ->]. rewrite Hex in Hg. now apply dict_get_Some_In.
Qed.

(** ** The stable sort *)

Lemma insert_by_perm {A : Type} (ltb : A -> A -> bool) (x : A) (l : list A) :
  Permutation (x :: l) (insert_by ltb x l).
Proof.
  induction l as [|y l IH]; simpl; [reflexivity|].
  destruct (ltb y x); [|reflexivity].
  rewrite perm_swap. now constructor.
Qed.

Lemma sort_by_perm {A : Type} (ltb : A -> A -> bool) (l : list A) :
  Permutation l (sort_by ltb l).
Proof.
  induction l as [|x l IH]; simpl; [constructor|].
  rewrite <- insert_by_perm. now constructor.
Qed.

Lemma sort_by_length {A : Type} (ltb : A -> A -> bool) (l : list A) :
  List.length (sort_by ltb l) = List.length l.
Proof. symmetry. apply Permutation_length, sort_by_perm. Qed.

Lemma insert_by_key_sorted {A : Type} (x : Z * A) (l : list (Z * A)) :
  StronglySorted (fun a b => (fst a <= fst b)%Z) l ->
  StronglySorted (fun a b => (fst a <= fst b)%Z)
    (insert_by (fun a b => Z.ltb (fst a) (fst b)) x l).
Proof.
  induction 1 as [|y l Hs IH Hall]; simpl.
  - repeat constructor.
  - destruct (Z.ltb_spec (fst y) (fst x)) as [Hlt|Hge].
    + constructor; [exact IH|].
      apply Forall_forall. intros z Hz.
      apply (Permutation_in _ (Permutation_sym (insert_by_perm _ x l))) in Hz.
      destruct Hz as [<-|Hz]; [lia|].
      now apply (proj1 (Forall_forall _ _) Hall).
    + constructor; [now constructor|].
      constructor; [exact Hge|].
      eapply Forall_impl; [|exact Hall].
      simpl; intros z Hz; lia.
Qed.

Lemma sort_by_key_sorted {A : Type} (l : list (Z * A)) :
  StronglySorted (fun a b => (fst a <= fst b)%Z)
    (sort_by (fun a b => Z.ltb (fst a) (fst b)) l).
Proof.
  induction l as [|x l IH]; simpl; [constructor|].
  now apply insert_by_key_sorted.
Qed.

Lemma StronglySorted_map {A B : Type} (R : A -> A -> Prop)
  (R' : B -> B -> Prop) (f : A -> B) (l : list A) :
  (forall a b, In a l -> In b l -> R a b -> R' (f a) (f b)) ->
  StronglySorted R l -> StronglySorted R' (map f l).
Proof.
  intros Hf Hs; induction Hs as [|x l Hs IH Hall]; simpl; constructor.
  - apply IH. intros a b Ha Hb; apply Hf; now right.
  - apply Forall_forall. intros y Hy. apply in_map_iff in Hy as (a & <- & Ha).
    apply Hf; [now left | now right |].
    now apply (proj1 (Forall_forall _ _) Hall).
Qed.

Lemma Forall2_In_r {A B : Type} (R : A -> B -> Prop) (l : list A)
  (l' : list B) (y : B) :
  Forall2 R l l' -> In y l' -> exists x, In x l /\ R x y.
Proof.
  induction 1 as [|a b l l' Hab H IH]; simpl; [contradiction|].
  intros [<-|Hy]; [eauto|]. destruct (IH Hy) as (x & Hx & Hr); eauto.
Qed.

Lemma Forall2_In_l {A B : Type} (R : A -> B -> Prop) (l : list A)
  (l' : list B) (x : A) :
  Forall2 R l l' -> In x l -> exists y, In y l' /\ R x y.
Proof.
  induction 1 as [|a b l l' Hab H IH]; simpl; [contradiction|].
  intros [<-|Hx]; [eauto|]. destruct (IH Hx) as (y & Hy & Hr); eauto.
Qed.

Section Sorting.

Variable py_int : string -> option Z.

Lemma sort_by_hop_spec (l out : list HopStats) :
  sort_by_hop py_int l = Ok out ->
  Permutation l out /\ StronglySorted (hop_le py_int) out.
Proof.
  unfold sort_by_hop. intros H.
  apply bind_Ok_inv in H as (keyed & Hk & H). inversion H; subst out; clear H.
  apply map_result_Forall2 in Hk.
  assert (Hsnd : map snd keyed = l).
  { clear -Hk. induction Hk as [|x kx l keyed Hx Hrest IH]; simpl;
      [reflexivity|].
    destruct (py_int (s_hop x)); [|discriminate].
    injection Hx as <-. simpl. now rewrite IH. }
  assert (Hkey : forall kx, In kx keyed ->
                            py_int (s_hop (snd kx)) = Some (fst kx)).
  { intros kx Hin. destruct (Forall2_In_r _ _ _ _ Hk Hin) as (x & _ & Hx).
    destruct (py_int (s_hop x)) eqn:E; inversion Hx; subst. exact E. }
  set (ltb := fun a b : Z * HopStats => Z.ltb (fst a) (fst b)).
  pose proof (sort_by_perm ltb keyed) as Hperm.
  split.
  - rewrite <- Hsnd. now apply Permutation_map.
  - eapply StronglySorted_map; [|apply sort_by_key_sorted].
    intros a b Ha Hb Hab.
    apply (Permutation_in _ (Permutation_sym Hperm)) in Ha, Hb.
    unfold hop_le. now rewrite (Hkey a Ha), (Hkey b Hb).
Qed.

Lemma sort_by_hop_total (l : list HopStats) :
  (forall x, In x l -> py_int (s_hop x) <> None) ->
  exists out, sort_by_hop py_int l = Ok out.
Proof.
  intros H. unfold sort_by_hop.
  destruct (map_result_total
              (fun x => match py_int (s_hop x) with
                        | Some k => Ok (k, x)
                        | None => Raise ValueError
                        end) l) as (keyed & ->).
  - intros x Hx. specialize (H x Hx).
    destruct (py_int (s_hop x)); [eauto | congruence].
  - simpl. eauto.
Qed.

End Sorting.

(** ** max, min, median and mean *)

Lemma Qltb_true (x y : Q) : Qltb x y = true <-> x < y.
Proof.
  unfold Qltb. rewrite negb_true_iff. split.
  - intros H. apply Qnot_le_lt. intros Hle.
    apply Qle_bool_iff in Hle. congruence.
  - intros H. destruct (Qle_bool y x) eqn:E; [|reflexivity].
    apply Qle_bool_iff in E. exfalso. now apply (Qlt_not_le x y).
Qed.

Lemma Qltb_false (x y : Q) : Qltb x y = false <-> y <= x.
Proof.
  unfold Qltb. rewrite negb_false_iff. apply Qle_bool_iff.
Qed.


Lemma fold_max_spec (l : list Q) (x : Q) :
  let m := fold_left (fun m y => if Qltb m y then y else m) l x in
  In m (x :: l) /\ x <= m /\ Forall (fun y => y <= m) l.
Proof.
  revert x; induction l as [|y l IH]; intros x; simpl.
  - repeat split; [now left | apply Qle_refl | constructor].
  - destruct (IH (if Qltb x y then y else x)) as (Hin & Hle & Hall).
    assert (Hxy : x <= (if Qltb x y then y else x) /\
                  y <= (if Qltb x y then y else x)).
    { destruct (Qltb x y) eqn:E.
      - apply Qltb_true in E. split; [now apply Qlt_le_weak | apply Qle_refl].
      - apply Qltb_false in E. split; [apply Qle_refl | exact E]. }
    destruct Hxy as [Hx Hy]. repeat split.
    + destruct Hin as [Hin|Hin]; [|now right; right].
      rewrite <- Hin. destruct (Qltb x y); [right; now left | now left].
    + eapply Qle_trans; eassumption.
    + constructor; [eapply Qle_trans; eassumption | exact Hall].
Qed.

Lemma fold_min_spec (l : list Q) (x : Q) :
  let m := fold_left (fun m y => if Qltb y m then y else m) l x in
  In m (x :: l) /\ m <= x /\ Forall (fun y => m <= y) l.
Proof.
  revert x; induction l as [|y l IH]; intros x; simpl.
  - repeat split; [now left | apply Qle_refl | constructor].
  - destruct (IH (if Qltb y x then y else x)) as (Hin & Hle & Hall).
    assert (Hxy : (if Qltb y x then y else x) <= x /\
                  (if Qltb y x then y else x) <= y).
    { destruct (Qltb y x) eqn:E.
      - apply Qltb_true in E. split; [now apply Qlt_le_weak | apply Qle_refl].
      - apply Qltb_false in E. split; [apply Qle_refl | exact E]. }
    destruct Hxy as [Hx Hy]. repeat split.
    + destruct Hin as [Hin|Hin]; [|now right; right].
      rewrite <- Hin. destruct (Qltb y x); [right; now left | now left].
    + eapply Qle_trans; eassumption.
    + constructor; [eapply Qle_trans; eassumption | exact Hall].
Qed.

(** [max] returns an item of the list that no item exceeds. *)
Lemma py_max_spec (l : list Q) (m : Q) :
  py_max l = Ok m -> In m l /\ Forall (fun y => y <= m) l.
Proof.
  destruct l as [|x l]; simpl; [discriminate|].
  intros H; inversion H; subst; clear H.
  destruct (fold_max_spec l x) as (Hin & Hle & Hall).
  split; [exact Hin | now constructor].
Qed.

(** [min] returns an item of the list that exceeds no item. *)
Lemma py_min_spec (l : list Q) (m : Q) :
  py_min l = Ok m -> In m l /\ Forall (fun y => m <= y) l.
Proof.
  destruct l as [|x l]; simpl; [discriminate|].
  intros H; inversion H; subst; clear H.
  destruct (fold_min_spec l x) as (Hin & Hle & Hall).
  split; [exact Hin | now constructor].
Qed.

Lemma py_max_total (l : list Q) : l <> [] -> exists m, py_max l = Ok m.
Proof. destruct l; [congruence | simpl; eauto]. Qed.

Lemma py_min_total (l : list Q) : l <> [] -> exists m, py_min l = Ok m.
Proof. destruct l; [congruence | simpl; eauto]. Qed.

Lemma statistics_mean_total (l : list Q) :
  l <> [] -> exists m, statistics_mean l = Ok m.
Proof. destruct l; [congruence | simpl; eauto]. Qed.

Lemma statistics_median_total (l : list Q) :
  l <> [] -> exists m, statistics_median l = Ok m.
Proof.
  intros Hne. unfold statistics_median, sorted.
  rewrite sort_by_length.
  destruct l as [|x l]; [congruence|].
  change (Nat.eqb (List.length (x :: l)) 0) with false. cbv iota.
  destruct (Nat.eqb (List.length (x :: l) mod 2) 1); eauto.
Qed.

Lemma floats_of_map_Some (xs : list Q) : floats_of (map Some xs) = Ok xs.
Proof.
  induction xs as [|x xs IH]; simpl; [reflexivity|]. now rewrite IH.
Qed.

Lemma floats_of_inv (l : list (option Q)) (xs : list Q) :
  floats_of l = Ok xs -> l = map Some xs.
Proof.
  revert xs; induction l as [|[x|] l IH]; intros xs H; simpl in H.
  - now inversion H.
  - apply bind_Ok_inv in H as (ys & Hys & H). inversion H; subst.
    simpl. now rewrite (IH ys Hys).
  - discriminate.
Qed.

(** ** The aggregate of one hop *)

(** From [H : xs <- floats_of l ;; ... = Ok v], the list [l] holds no
    [None]: it is [map Some xs]. *)
Ltac no_None H xs :=
  let Hxs := fresh "H" xs in
  apply bind_Ok_inv in H as (xs & Hxs & _);
  apply floats_of_inv in Hxs; exists xs.

(** An aggregate is only computed from accumulators without [None]. *)
Lemma hop_stats_Ok_numbers (h : string) (data : HopData) (st : HopStats) :
  hop_stats (h, data) = Ok st ->
  exists maxs meds mins,
    acc_max data = map Some maxs /\ acc_med data = map Some meds /\
    acc_min data = map Some mins.
Proof.
  unfold hop_stats. intros H.
  apply bind_Ok_inv in H as (a & _ & H).
  apply bind_Ok_inv in H as (b & Hb & H).
  apply bind_Ok_inv in H as (c & Hc & H).
  apply bind_Ok_inv in H as (d & Hd & _).
  destruct (acc_max data) as [|x0 lx] eqn:Ex; [exists []|no_None Hb maxs];
    (destruct (acc_med data) as [|d0 ld] eqn:Ed; [exists []|no_None Hc meds]);
    (destruct (acc_min data) as [|n0 ln] eqn:En; [exists []|no_None Hd mins]);
    now repeat split.
Qed.

Lemma hop_stats_hop (h : string) (data : HopData) (st : HopStats) :
  hop_stats (h, data) = Ok st -> s_hop st = h /\ s_hosts st = acc_hosts data.
Proof.
  unfold hop_stats. intros H.
  apply bind_Ok_inv in H as (a & _ & H).
  apply bind_Ok_inv in H as (b & _ & H).
  apply bind_Ok_inv in H as (c & _ & H).
  apply bind_Ok_inv in H as (d & _ & H).
  inversion H; subst. now split.
Qed.

(** The numbers of the records that were added: every such record has an
    average, and when it is complete, the three other numbers. *)
Lemma contributions_numbers (cs : list TracerouteOutput) :
  Forall (fun r => contributes r = true) cs ->
  Forall (fun r => complete r = true) cs ->
  exists avgs maxs meds mins,
    map avg cs = map Some avgs /\ map maximum cs = map Some maxs /\
    map median cs = map Some meds /\ map minimum cs = map Some mins /\
    flat_map (fun r => match avg r with
                       | Some a => [a]
                       | None => []
                       end) cs = avgs.
Proof.
  induction cs as [|r cs IH]; intros Hc Hf.
  - exists [], [], [], []. repeat split.
  - inversion Hc as [|? ? Hr Hc']; inversion Hf as [|? ? Hk Hf']; subst.
    destruct (IH Hc' Hf') as (avgs & maxs & meds & mins & Ha & Hx & Hd & Hn & Hfl).
    unfold contributes in Hr. unfold complete in Hk.
    destruct (avg r) as [a|] eqn:Ea; [|discriminate].
    destruct (maximum r) as [x|] eqn:Ex; [|discriminate].
    destruct (median r) as [d|] eqn:Ed; [|discriminate].
    destruct (minimum r) as [n|] eqn:En; [|discriminate].
    exists (a :: avgs), (x :: maxs), (d :: meds), (n :: mins). simpl.
    rewrite Ea, Ex, Ed, En, Ha, Hx, Hd, Hn. simpl. rewrite Hfl.
    repeat split.
Qed.

Lemma hop_stats_numbers (h : string) (avgs maxs meds mins : list Q)
  (hs : list (list host_pair)) (mean M med m : Q) :
  statistics_mean avgs = Ok mean -> py_max maxs = Ok M ->
  statistics_median meds = Ok med -> py_min mins = Ok m ->
  hop_stats (h, {| acc_avg := avgs; acc_max := map Some maxs;
                   acc_med := map Some meds; acc_min := map Some mins;
                   acc_hosts := hs |}) =
  Ok {| s_avg := Some (round mean 3); s_hop := h; s_hosts := hs;
        s_max := Some (round M 3); s_med := Some (round med 3);
        s_min := Some (round m 3) |}.
Proof.
  intros Hmean HM Hmed Hm. unfold hop_stats.
  cbv beta iota delta [acc_avg acc_max acc_med acc_min acc_hosts].
  destruct avgs as [|a avgs]; [discriminate|].
  destruct maxs as [|x maxs]; [discriminate|].
  destruct meds as [|d meds]; [discriminate|].
  destruct mins as [|n mins]; [discriminate|].
  rewrite Hmean.
  change (map Some (x :: maxs)) with (Some x :: map Some maxs).
  change (map Some (d :: meds)) with (Some d :: map Some meds).
  change (map Some (n :: mins)) with (Some n :: map Some mins).
  cbv iota.
  change (Some x :: map Some maxs) with (map Some (x :: maxs)).
  change (Some d :: map Some meds) with (map Some (d :: meds)).
  change (Some n :: map Some mins) with (map Some (n :: mins)).
  rewrite !floats_of_map_Some.
  cbv beta iota delta [bind].
  rewrite HM. cbv beta iota. rewrite Hmed. cbv beta iota. rewrite Hm.
  reflexivity.
Qed.

Lemma hop_stats_acc_of (h : string) (xs : list TracerouteOutput) :
  let cs := filter contributes (filter (at_hop h) xs) in
  Forall (fun r => complete r = true) cs ->
  match cs with
  | [] => hop_stats (h, acc_of h xs) = Ok (null_stats h)
  | _ :: _ =>
      exists avgs maxs meds mins mean M med m,
        map avg cs = map Some avgs /\ map maximum cs = map Some maxs /\
        map median cs = map Some meds /\ map minimum cs = map Some mins /\
        statistics_mean avgs = Ok mean /\ py_max maxs = Ok M /\
        statistics_median meds = Ok med /\ py_min mins = Ok m /\
        hop_stats (h, acc_of h xs) =
        Ok {| s_avg := Some (round mean 3); s_hop := h;
              s_hosts := map hosts cs; s_max := Some (round M 3);
              s_med := Some (round med 3); s_min := Some (round m 3) |}
  end.
Proof.
  intros cs Hf. unfold acc_of. fold cs.
  assert (Hc : Forall (fun r => contributes r = true) cs).
  { apply Forall_forall. intros r Hr. now apply filter_In in Hr. }
  destruct (contributions_numbers cs Hc Hf)
    as (avgs & maxs & meds & mins & Ha & Hx & Hd & Hn & Hfl).
  rewrite Hfl, Hx, Hd, Hn.
  destruct cs as [|c cs']; [|clear Hc Hf Hfl].
  - destruct avgs; [|discriminate]. destruct maxs; [|discriminate].
    destruct meds; [|discriminate]. destruct mins; [|discriminate].
    reflexivity.
  - destruct (statistics_mean_total avgs) as (mean & Hmean);
      [destruct avgs; discriminate|].
    destruct (py_max_total maxs) as (M & HM); [destruct maxs; discriminate|].
    destruct (statistics_median_total meds) as (med & Hmed);
      [destruct meds; discriminate|].
    destruct (py_min_total mins) as (m & Hm); [destruct mins; discriminate|].
    exists avgs, maxs, meds, mins, mean, M, med, m.
    repeat (split; [assumption || reflexivity|]).
    now apply hop_stats_numbers.
Qed.

(** ** get_statistics_per_hop as a whole *)

Section Aggregation.

Variable py_int : string -> option Z.

Lemma aggregable_In (cd : list (list TracerouteOutput))
  (r : TracerouteOutput) :
  aggregable py_int cd = true -> In r (List.concat cd) ->
  py_int (hop r) <> None /\ (contributes r = true -> complete r = true).
Proof.
  unfold aggregable. rewrite forallb_forall. intros H Hr.
  specialize (H r Hr). apply andb_true_iff in H as [Hi Hc].
  split.
  - destruct (py_int (hop r)); [discriminate | discriminate Hi].
  - intros Hcon. rewrite Hcon in Hc. exact Hc.
Qed.

Lemma aggregable_complete (cd : list (list TracerouteOutput)) (h : string) :
  aggregable py_int cd = true ->
  Forall (fun r => complete r = true)
    (filter contributes (filter (at_hop h) (List.concat cd))).
Proof.
  intros Hagg. apply Forall_forall. intros r Hr.
  apply filter_In in Hr as [Hr Hc]. apply filter_In in Hr as [Hr _].
  now apply (aggregable_In cd r Hagg Hr).
Qed.

Lemma existsb_at_hop (h : string) (xs : list TracerouteOutput) :
  existsb (at_hop h) xs = true <-> exists r, In r xs /\ hop r = h.
Proof.
  rewrite existsb_exists. unfold at_hop.
  split; intros (r & Hr & E); exists r; split; try assumption;
    now apply String.eqb_eq.
Qed.

(** The output holds one aggregate for every hop that occurs in the
    input, each computed from the accumulator of its hop; it is sorted on
    [int] of the hop, and no hop string occurs twice. *)
Lemma get_statistics_per_hop_inv (cd : list (list TracerouteOutput))
  (out : list HopStats) :
  get_statistics_per_hop py_int cd = Ok out ->
  (forall st, In st out <->
     exists h, existsb (at_hop h) (List.concat cd) = true /\
               hop_stats (h, acc_of h (List.concat cd)) = Ok st) /\
  NoDup (map s_hop out) /\
  StronglySorted (hop_le py_int) out.
Proof.
  unfold get_statistics_per_hop. intros H.
  apply bind_Ok_inv in H as (stats & Hstats & Hsort).
  apply sort_by_hop_spec in Hsort as [Hperm Hsorted].
  apply map_result_Forall2 in Hstats.
  split; [|split; [|exact Hsorted]].
  - intros st. split.
    + intros Hin. apply (Permutation_in _ (Permutation_sym Hperm)) in Hin.
      destruct (Forall2_In_r _ _ _ _ Hstats Hin) as ([h data] & Hitem & Hst).
      apply group_by_hop_In in Hitem as [Hex ->]. eauto.
    + intros (h & Hex & Hst).
      assert (Hitem : In (h, acc_of h (List.concat cd)) (group_by_hop cd))
        by now apply group_by_hop_In.
      destruct (Forall2_In_l _ _ _ _ Hstats Hitem) as (y & Hy & Hst').
      rewrite Hst in Hst'. inversion Hst'; subst y.
      now apply (Permutation_in _ Hperm).
  - assert (Hkeys : map s_hop stats = map fst (group_by_hop cd)).
    { clear -Hstats.
      induction Hstats as [|[h data] st l l' Hst Hrest IH]; simpl;
        [reflexivity|].
      apply hop_stats_hop in Hst as [-> _]. now rewrite IH. }
    apply (Permutation_NoDup (Permutation_map s_hop Hperm)).
    rewrite Hkeys, group_by_hop_concat. apply fold_add_result_NoDup.
Qed.

(** On an aggregable input nothing is raised. *)
Lemma get_statistics_per_hop_total (cd : list (list TracerouteOutput)) :
  aggregable py_int cd = true ->
  exists out, get_statistics_per_hop py_int cd = Ok out.
Proof.
  intros Hagg. unfold get_statistics_per_hop.
  destruct (map_result_total hop_stats (group_by_hop cd)) as (stats & Hstats).
  - intros [h data] Hitem. apply group_by_hop_In in Hitem as [_ ->].
    pose proof (hop_stats_acc_of h (List.concat cd)
                  (aggregable_complete cd h Hagg)) as Hs.
    cbv zeta in Hs.
    destruct (filter contributes (filter (at_hop h) (List.concat cd)));
      [eauto|].
    destruct Hs as (? & ? & ? & ? & ? & ? & ? & ? & Hs). 
    repeat match type of Hs with _ /\ _ => destruct Hs as [_ Hs] end. eauto.
  - rewrite Hstats. simpl. apply sort_by_hop_total.
    intros st Hst. apply map_result_Forall2 in Hstats.
    destruct (Forall2_In_r _ _ _ _ Hstats Hst) as ([h data] & Hitem & Hh).
    apply hop_stats_hop in Hh as [-> _].
    apply group_by_hop_In in Hitem as [Hex _].
    apply existsb_at_hop in Hex as (r & Hr & <-).
    now apply (aggregable_In cd r Hagg Hr).
Qed.

(** And only on an aggregable input. *)
Lemma get_statistics_per_hop_Ok_aggregable
  (cd : list (list TracerouteOutput)) (out : list HopStats) :
  get_statistics_per_hop py_int cd = Ok out -> aggregable py_int cd = true.
Proof.
  unfold get_statistics_per_hop. intros H.
  apply bind_Ok_inv in H as (stats & Hstats & Hsort).
  apply map_result_Forall2 in Hstats.
  unfold sort_by_hop in Hsort.
  apply bind_Ok_inv in Hsort as (keyed & Hkeyed & _).
  apply map_result_Forall2 in Hkeyed.
  unfold aggregable. apply forallb_forall. intros r Hr.
  assert (Hitem : In (hop r, acc_of (hop r) (List.concat cd))
                    (group_by_hop cd)).
  { apply group_by_hop_In. split; [|reflexivity].
    apply existsb_at_hop. now exists r. }
  destruct (Forall2_In_l _ _ _ _ Hstats Hitem) as (st & Hst & Hs).
  apply andb_true_iff. split.
  - destruct (Forall2_In_l _ _ _ _ Hkeyed Hst) as (kx & _ & Hk).
    apply hop_stats_hop in Hs as [Hh _]. rewrite Hh in Hk.
    now destruct (py_int (hop r)).
  - destruct (contributes r) eqn:Hc; [simpl|reflexivity].
    apply hop_stats_Ok_numbers in Hs as (maxs & meds & mins & Hx & Hd & Hn).
    unfold acc_of in Hx, Hd, Hn. simpl in Hx, Hd, Hn.
    assert (Hin : In r (filter contributes
                          (filter (at_hop (hop r)) (List.concat cd)))).
    { apply filter_In. split; [|exact Hc].
      apply filter_In. split; [exact Hr | apply String.eqb_refl]. }
    assert (Hsome : forall (f : TracerouteOutput -> option Q) (xs : list Q),
               map f (filter contributes
                        (filter (at_hop (hop r)) (List.concat cd)))
               = map Some xs -> is_some (f r) = true).
    { intros f xs Hf. apply (in_map f) in Hin. rewrite Hf in Hin.
      apply in_map_iff in Hin as (x & <- & _). reflexivity. }
    unfold complete.
    now rewrite (Hsome _ _ Hx), (Hsome _ _ Hd), (Hsome _ _ Hn).
Qed.

End Aggregation.

(** ** parse_traceroute_output *)

Section Parsing.

Variable py_float : string -> option Q.

Lemma scan_step_times (parts : list string) (i : nat)
  (st : list Q * list host_pair) :
  fst (scan_step py_float parts i st) =
  (fst st ++ sample_at py_float parts i)%list.
Proof.
  destruct st as [times hosts]. unfold scan_step, sample_at, is_latency,
    is_address. simpl.
  destruct (contains "(" (nth i parts "") && contains ")" (nth i parts ""));
    simpl; [now rewrite app_nil_r|].
  destruct (contains "ms" (nth i parts "")); simpl; [|now rewrite app_nil_r].
  destruct (py_float (nth (i - 1) parts "")); simpl;
    [reflexivity | now rewrite app_nil_r].
Qed.

Lemma fold_scan_times (parts : list string) (l : list nat)
  (st : list Q * list host_pair) :
  fst (fold_left (fun st i => scan_step py_float parts i st) l st) =
  (fst st ++ flat_map (sample_at py_float parts) l)%list.
Proof.
  revert st; induction l as [|i l IH]; intros st; simpl.
  - now rewrite app_nil_r.
  - now rewrite IH, scan_step_times, <- app_assoc.
Qed.

(** The samples of a line: the numbers before its latency markers that
    [float] reads, in the order of the line. *)
Lemma scan_times (parts : list string) :
  fst (scan py_float parts) =
  flat_map (sample_at py_float parts) (seq 1 (List.length parts - 1)).
Proof. unfold scan. now rewrite fold_scan_times. Qed.

(** What one line does to the output list. *)
Lemma parse_hop_inv (line : string) (out out' : list TracerouteOutput)
  (lat lat' : dict (list Q)) :
  parse_hop py_float line (out, lat) = Ok (out', lat') ->
  exists h rest,
    split line = h :: rest /\
    ((is_timeout (h :: rest) = true /\ out' = (out ++ [timeout_record h])%list)
     \/ (is_timeout (h :: rest) = false /\
         fst (scan py_float (h :: rest)) = [] /\ out' = out)
     \/ (is_timeout (h :: rest) = false /\
         exists r, out' = (out ++ [r])%list /\ hop r = h /\
                   hosts r = snd (scan py_float (h :: rest)) /\
                   sample_record (fst (scan py_float (h :: rest))) r)).
Proof.
  unfold parse_hop. destruct (split line) as [|h rest]; [discriminate|].
  intros H. exists h, rest. split; [reflexivity|].
  destruct (is_timeout (h :: rest)).
  - left. inversion H; subst. now split.
  - right. destruct (scan py_float (h :: rest)) as [times hs].
    destruct times as [|t times].
    + left. inversion H; subst. now repeat split.
    + right. split; [reflexivity|].
      apply bind_Ok_inv in H as (M & HM & H).
      apply bind_Ok_inv in H as (M' & HM' & H).
      apply bind_Ok_inv in H as (med & Hmed & H).
      rewrite HM in HM'. inversion HM'; subst M'.
      inversion H; subst; clear H.
      eexists. split; [reflexivity|]. simpl.
      repeat split; try discriminate.
      exists M, med. now repeat split.
Qed.

Lemma parse_hop_total (line : string)
  (st : list TracerouteOutput * dict (list Q)) :
  nonblank line -> exists st', parse_hop py_float line st = Ok st'.
Proof.
  unfold nonblank, parse_hop. destruct st as [out lat].
  destruct (split line) as [|h rest]; [congruence|]. intros _.
  destruct (is_timeout (h :: rest)); [eauto|].
  destruct (scan py_float (h :: rest)) as [times hs].
  destruct times as [|t times]; [eauto|].
  destruct (py_max_total (t :: times)) as (M & HM); [discriminate|].
  destruct (statistics_median_total (t :: times)) as (med & Hmed);
    [discriminate|].
  rewrite HM, Hmed. simpl. eauto.
Qed.

(** A line without a token stops the run with an [IndexError]. *)
Lemma parse_hop_blank (line : string)
  (st : list TracerouteOutput * dict (list Q)) :
  split line = [] -> parse_hop py_float line st = Raise IndexError.
Proof. unfold parse_hop. destruct st. now intros ->. Qed.

Lemma parse_traceroute_output_total (text : string) (lat : dict (list Q)) :
  Forall nonblank (body_lines text) ->
  exists out lat', parse_traceroute_output py_float text lat = Ok (out, lat').
Proof.
  intros H. unfold parse_traceroute_output.
  destruct (for_each_total (parse_hop py_float) nonblank) with
    (l := skipn 1 (splitlines text)) (st := (@nil TracerouteOutput, lat))
    as ([out lat'] & Hst); eauto using parse_hop_total.
Qed.

(** Every record of a run is a timeout record or the record of a
    non-empty list of samples. *)
Lemma parse_traceroute_output_records (text : string)
  (lat lat' : dict (list Q)) (out : list TracerouteOutput) :
  parse_traceroute_output py_float text lat = Ok (out, lat') ->
  Forall (fun r => r = timeout_record (hop r) \/
                   exists times, sample_record times r) out.
Proof.
  unfold parse_traceroute_output. intros H.
  set (P := fun st : list TracerouteOutput * dict (list Q) =>
              Forall (fun r => r = timeout_record (hop r) \/
                               exists times, sample_record times r) (fst st)).
  assert (Hstep : forall line st st',
             P st -> parse_hop py_float line st = Ok st' -> P st').
  { intros line [o l] [o' l'] HP Hstep. unfold P in *. simpl in *.
    apply parse_hop_inv in Hstep as (h & rest & _ & Hcase).
    destruct Hcase as [[_ ->]|[(_ & _ & ->)|(_ & r & -> & _ & _ & Hr)]].
    - apply Forall_app. split; [exact HP|]. repeat constructor.
    - exact HP.
    - apply Forall_app. split; [exact HP|].
      constructor; [right; eauto | constructor]. }
  assert (H0 : P ([], lat)) by (unfold P; constructor).
  exact (for_each_invariant _ P Hstep _ _ _ H0 H).
Qed.

(** Where the records of a run come from: each from a line that starts
    with its hop, a timeout line giving the timeout record; and every
    timeout line gives its record. *)
Lemma for_each_parse_hop_records (lines : list string)
  (out0 out : list TracerouteOutput) (lat0 lat : dict (list Q)) :
  for_each (parse_hop py_float) lines (out0, lat0) = Ok (out, lat) ->
  exists recs,
    out = (out0 ++ recs)%list /\
    Forall (fun r => exists l,
              In l lines /\ first_token l = hop r /\
              (is_timeout (split l) = true -> r = timeout_record (hop r)) /\
              (r = timeout_record (hop r) \/
               exists times, sample_record times r) /\
              emits py_float l = true) recs /\
    (forall l, In l lines -> is_timeout (split l) = true ->
               In (timeout_record (first_token l)) recs).
Proof.
  revert out0 lat0; induction lines as [|line lines IH]; intros out0 lat0 H;
    simpl in H.
  - inversion H; subst. exists []. rewrite app_nil_r.
    repeat split; [constructor | intros l []].
  - apply bind_Ok_inv in H as ([out1 lat1] & Hline & Hrest).
    apply IH in Hrest as (recs & -> & Hall & Hto).
    assert (Hall' : Forall (fun r => exists l,
                       In l (line :: lines) /\ first_token l = hop r /\
                       (is_timeout (split l) = true ->
                        r = timeout_record (hop r)) /\
                       (r = timeout_record (hop r) \/
                        exists times, sample_record times r) /\
                       emits py_float l = true) recs).
    { eapply Forall_impl; [|exact Hall].
      intros r (l & Hl & Hrest). exists l. split; [now right | exact Hrest]. }
    apply parse_hop_inv in Hline as (h & rest & Hsplit & Hcase).
    assert (Hfirst : first_token line = h)
      by (unfold first_token; now rewrite Hsplit).
    assert (He : emits py_float line =
                 is_timeout (h :: rest) ||
                 match fst (scan py_float (h :: rest)) with
                 | [] => false
                 | _ :: _ => true
                 end) by (unfold emits; now rewrite Hsplit).
    destruct Hcase as [[Ht ->]|[(Ht & _ & ->)|(Ht & r & -> & Hh & _ & Hr)]].
    + exists (timeout_record h :: recs). rewrite <- app_assoc.
      split; [reflexivity|]. split.
      * constructor; [|exact Hall'].
        exists line. simpl.
        repeat split; [now left | assumption | now left |].
        rewrite He, Ht. reflexivity.
      * intros l [<-|Hl] Hl'; [rewrite Hfirst; now left | right; eauto].
    + exists recs. split; [reflexivity|]. split; [exact Hall'|].
      intros l [<-|Hl] Hl'; [|eauto]. rewrite Hsplit in Hl'. congruence.
    + exists (r :: recs). rewrite <- app_assoc.
      split; [reflexivity|]. split.
      * constructor; [|exact Hall'].
        exists line.
        split; [now left|]. split; [congruence|].
        split; [rewrite Hsplit; congruence|]. split; [right; eauto|].
        rewrite He, Ht. destruct Hr as (Hne & _).
        destruct (fst (scan py_float (h :: rest))); [congruence|reflexivity].
      * intros l [<-|Hl] Hl'; [|right; eauto].
        rewrite Hsplit in Hl'. congruence.
Qed.

(** The runs that [use_test_directory] collects are the parses of the
    files, in order. *)
Lemma use_test_directory_runs (files : list string)
  (cd : list (list TracerouteOutput)) (lat : dict (list Q)) :
  use_test_directory py_float files = Ok (cd, lat) ->
  Forall2 (fun text run =>
             exists lat0 lat1,
               parse_traceroute_output py_float text lat0 = Ok (run, lat1))
    files cd.
Proof.
  unfold use_test_directory.
  assert (Hgen : forall files cd0 lat0 cd lat,
             for_each
               (fun text st =>
                  let '(cumulative_data, latencies_per_hop) := st in
                  r <- parse_traceroute_output py_float text
                         latencies_per_hop ;;
                  Ok ((cumulative_data ++ [fst r])%list, snd r))
               files (cd0, lat0) = Ok (cd, lat) ->
             exists cd',
               cd = (cd0 ++ cd')%list /\
               Forall2 (fun text run =>
                          exists lat0 lat1,
                            parse_traceroute_output py_float text lat0
                            = Ok (run, lat1)) files cd').
  { clear. intros files; induction files as [|text files IH];
      intros cd0 lat0 cd lat H; simpl in H.
    - inversion H; subst. exists []. rewrite app_nil_r. split; constructor.
    - apply bind_Ok_inv in H as ([cd1 lat1] & Hstep & Hrest).
      apply bind_Ok_inv in Hstep as ([run lat2] & Hparse & Hstep).
      simpl in Hstep. inversion Hstep; subst cd1 lat1; clear Hstep.
      apply IH in Hrest as (cd' & -> & Hall).
      exists (run :: cd'). rewrite <- app_assoc. split; [reflexivity|].
      constructor; [eauto | exact Hall]. }
  intros H. apply Hgen in H as (cd' & -> & Hall). exact Hall.
Qed.

Lemma use_test_directory_total (files : list string) :
  Forall (fun text => Forall nonblank (body_lines text)) files ->
  exists cd lat, use_test_directory py_float files = Ok (cd, lat).
Proof.
  intros H. unfold use_test_directory.
  destruct (for_each_total
              (fun text (st : list (list TracerouteOutput) * dict (list Q)) =>
                 let '(cumulative_data, latencies_per_hop) := st in
                 r <- parse_traceroute_output py_float text
                        latencies_per_hop ;;
                 Ok ((cumulative_data ++ [fst r])%list, snd r))
              (fun text => Forall nonblank (body_lines text)))
    with (l := files) (st := (@nil (list TracerouteOutput),
                              @nil (string * list Q)))
    as ([cd lat] & Hst); [|exact H|eauto].
  intros text [cd0 lat0] Hnb.
  destruct (parse_traceroute_output_total text lat0 Hnb) as (out & lat' & ->).
  simpl. eauto.
Qed.

End Parsing.

(** ** Rounding *)









(** ** The claims on the parser *)

(** C1 (the code departs from the claim).  On the scenario line of the
    specification the parser stores the largest sample, 1.789, in the
    minimum field, where the smallest sample is 1.234; the minimum then
    exceeds the median 1.456. *)
Theorem scenario_minimum_is_largest_sample :
  parse_traceroute_output float_literal (text_of [scenario_line]) [] =
  Ok ([{| avg := Some (149 # 100); hop := "5";
          hosts := [("192.168.1.1", "(192.168.1.1)")];
          maximum := Some (1789 # 1000); median := Some (182 # 125);
          minimum := Some (1789 # 1000) |}],
      [("5", [617 # 500; 182 # 125; 1789 # 1000])]) /\
  py_min [617 # 500; 182 # 125; 1789 # 1000] = Ok (617 # 500) /\
  182 # 125 < 1789 # 1000.
Proof. repeat split. Qed.

(** In every record with samples the minimum field repeats the maximum
    field, which is the largest sample. *)
Lemma parsed_minimum_is_maximum (py_float : string -> option Q)
  (text : string) (lat lat' : dict (list Q)) (out : list TracerouteOutput) :
  parse_traceroute_output py_float text lat = Ok (out, lat') ->
  Forall (fun r => minimum r = maximum r) out.
Proof.
  intros H. apply parse_traceroute_output_records in H.
  eapply Forall_impl; [|exact H]. intros r [->|(times & _ & _ & M & med & Hr)].
  - reflexivity.
  - destruct Hr as (_ & _ & -> & -> & _). reflexivity.
Qed.

(** C2, as stated, fails: a line with a host pair and no latency yields
    no record at all. *)
Lemma hosts_only_line_yields_no_record :
  is_timeout (split hosts_only_line) = false /\
  scan float_literal (split hosts_only_line) =
    ([], [("r.example.net", "(10.0.0.7)")]) /\
  parse_traceroute_output float_literal (text_of [hosts_only_line]) [] =
    Ok ([], []) /\
  ~ (exists out lat r,
       parse_traceroute_output float_literal (text_of [hosts_only_line]) []
       = Ok (out, lat) /\ In r out).
Proof.
  repeat split. intros (out & lat & r & H & Hr).
  vm_compute in H. inversion H; subst. contradiction.
Qed.

(** C2, amended.  A line with a token that is not the timeout pattern and
    gives no sample is dropped: it leaves the output list and the latency
    collector as they were, raises nothing, and the run is parsed as if
    the line were absent. *)
Theorem zero_sample_line_is_dropped (py_float : string -> option Q)
  (line : string) :
  nonblank line ->
  is_timeout (split line) = false ->
  fst (scan py_float (split line)) = [] ->
  (forall st, parse_hop py_float line st = Ok st) /\
  (forall before after st,
     for_each (parse_hop py_float) (before ++ line :: after) st =
     for_each (parse_hop py_float) (before ++ after) st).
Proof.
  intros Hnb Hto Hscan.
  assert (Hline : forall st, parse_hop py_float line st = Ok st).
  { intros [out lat]. unfold parse_hop. unfold nonblank in Hnb.
    destruct (split line) as [|h rest]; [congruence|].
    rewrite Hto. destruct (scan py_float (h :: rest)) as [times hs].
    simpl in Hscan. now subst times. }
  split; [exact Hline|].
  intros before after st. rewrite !for_each_app.
  destruct (for_each (parse_hop py_float) before st) as [st1|e]; simpl;
    [|reflexivity].
  now rewrite Hline.
Qed.

Lemma zero_sample_line_is_dropped_witness :
  (forall st, parse_hop float_literal hosts_only_line st = Ok st) /\
  (forall before after st,
     for_each (parse_hop float_literal) (before ++ hosts_only_line :: after) st =
     for_each (parse_hop float_literal) (before ++ after) st).
Proof.
  apply (zero_sample_line_is_dropped float_literal hosts_only_line).
  - unfold nonblank. vm_compute. discriminate.
  - reflexivity.
  - reflexivity.
Defined.

(** C9.  When token [i] of a line is a latency marker and [float] raises
    on the token before it, that turn of the loop changes nothing; the
    samples of the line are those of the other tokens, before and after;
    the line raises nothing, and neither does a run that holds it among
    lines with a token. *)
Theorem unparsable_latency_is_skipped (py_float : string -> option Q)
  (line : string) (i : nat) :
  (1 <= i < List.length (split line))%nat ->
  is_latency (nth i (split line) "") = true ->
  py_float (nth (i - 1) (split line) "") = None ->
  (forall st, scan_step py_float (split line) i st = st) /\
  fst (scan py_float (split line)) =
    (flat_map (sample_at py_float (split line)) (seq 1 (i - 1)) ++
     flat_map (sample_at py_float (split line))
       (seq (S i) (List.length (split line) - 1 - i)))%list /\
  (forall st, exists st', parse_hop py_float line st = Ok st') /\
  (forall before after st,
     Forall nonblank before -> Forall nonblank after ->
     exists st',
       for_each (parse_hop py_float) (before ++ line :: after) st = Ok st').
Proof.
  intros Hi Hlat Hfloat.
  assert (Hnb : nonblank line).
  { unfold nonblank. destruct (split line); simpl in Hi; [lia | discriminate]. }
  split; [|split; [|split]].
  - intros [times hs]. unfold scan_step.
    unfold is_latency, is_address in Hlat.
    apply andb_true_iff in Hlat as [Ha Hms].
    apply negb_true_iff in Ha. rewrite Ha, Hms, Hfloat. reflexivity.
  - rewrite scan_times.
    assert (Hseq : seq 1 (List.length (split line) - 1) =
                   (seq 1 (i - 1) ++ [i] ++
                    seq (S i) (List.length (split line) - 1 - i))%list).
    { remember (List.length (split line) - 1 - i)%nat as k eqn:Ek.
      replace (List.length (split line) - 1)%nat with ((i - 1) + S k)%nat
        by lia.
      rewrite seq_app. simpl seq.
      replace (S (i - 1)) with i by lia. reflexivity. }
    rewrite Hseq, !flat_map_app. simpl flat_map.
    unfold sample_at at 2. rewrite Hlat, Hfloat. reflexivity.
  - intros st. now apply parse_hop_total.
  - intros before after st Hb Ha.
    apply (for_each_total (parse_hop py_float) nonblank).
    + intros x st0 Hx. now apply parse_hop_total.
    + apply Forall_app. split; [exact Hb | now constructor].
Qed.

Lemma unparsable_latency_is_skipped_witness :
  fst (scan float_literal (split bad_token_line)) = [1; 3].
Proof.
  destruct (unparsable_latency_is_skipped float_literal bad_token_line 6)
    as (_ & H & _).
  - vm_compute. lia.
  - reflexivity.
  - reflexivity.
  - rewrite H. reflexivity.
Defined.

(** C10.  On a text whose lines after the header each hold a token the
    parser returns, and every record it returns has its four numbers all
    null or all set. *)
Theorem parsed_numbers_all_null_or_all_set (py_float : string -> option Q)
  (text : string) (lat : dict (list Q)) :
  Forall nonblank (body_lines text) ->
  exists out lat',
    parse_traceroute_output py_float text lat = Ok (out, lat') /\
    Forall (fun r => all_null r \/ all_set r) out.
Proof.
  intros Hnb.
  destruct (parse_traceroute_output_total py_float text lat Hnb)
    as (out & lat' & H).
  exists out, lat'. split; [exact H|].
  apply parse_traceroute_output_records in H.
  eapply Forall_impl; [|exact H].
  intros r [->|(times & _ & Ha & M & med & _ & _ & Hx & Hn & Hd)].
  - left. now repeat split.
  - right. unfold all_set. rewrite Ha, Hx, Hn, Hd. now repeat split.
Qed.

Lemma parsed_numbers_all_null_or_all_set_witness :
  exists out lat',
    parse_traceroute_output float_literal
      (text_of [scenario_line; timeout_line; hosts_only_line]) []
    = Ok (out, lat') /\
    Forall (fun r => all_null r \/ all_set r) out.
Proof.
  apply parsed_numbers_all_null_or_all_set.
  vm_compute. repeat constructor; discriminate.
Defined.

(** ** The claims on the aggregator *)

Lemma sample_runs_parsed :
  exists lat, use_test_directory float_literal sample_files
              = Ok (sample_runs, lat).
Proof. eexists. vm_compute. reflexivity. Qed.

Lemma contributions_unfold (h : string) (cd : list (list TracerouteOutput)) :
  contributions h cd =
  filter contributes (filter (at_hop h) (List.concat cd)).
Proof. reflexivity. Qed.

(** C3, as stated, fails: a line with two host pairs gives an aggregate
    whose host field has one entry, the list of both pairs. *)
Lemma aggregate_hosts_are_nested :
  trstats float_literal int_literal [text_of [two_hosts_line]] =
  Ok [{| s_avg := Some 2; s_hop := "2";
         s_hosts := [[("a.example.net", "(10.0.0.1)");
                      ("b.example.net", "(10.0.0.2)")]];
         s_max := Some 3; s_med := Some 2; s_min := Some 3 |}] /\
  List.length [[("a.example.net", "(10.0.0.1)");
                ("b.example.net", "(10.0.0.2)")]] = 1%nat /\
  List.length [("a.example.net", "(10.0.0.1)");
               ("b.example.net", "(10.0.0.2)")] = 2%nat.
Proof. repeat split. Qed.

(** C3, amended.  The host field of an aggregate holds one entry for
    every record of its hop that was added to the accumulators, in run
    order and then line order; the entry is the host list of that record.
    Its length is the number of those records, and flattened it is the
    concatenation of their host pairs, nothing removed. *)
Theorem aggregate_hosts_one_entry_per_record (py_int : string -> option Z)
  (cd : list (list TracerouteOutput)) :
  aggregable py_int cd = true ->
  exists out,
    get_statistics_per_hop py_int cd = Ok out /\
    forall st, In st out ->
      s_hosts st = map hosts (contributions (s_hop st) cd) /\
      List.length (s_hosts st) =
        List.length (contributions (s_hop st) cd) /\
      List.concat (s_hosts st) =
        flat_map hosts (contributions (s_hop st) cd).
Proof.
  intros Hagg.
  destruct (get_statistics_per_hop_total py_int cd Hagg) as (out & Hout).
  exists out. split; [exact Hout|].
  apply get_statistics_per_hop_inv in Hout as (Hin & _ & _).
  intros st Hst. apply Hin in Hst as (h & _ & Hs).
  apply hop_stats_hop in Hs as [-> ->].
  rewrite contributions_unfold. unfold acc_of. simpl.
  repeat split.
  - apply length_map.
  - symmetry. apply flat_map_concat_map.
Qed.

Lemma aggregate_hosts_one_entry_per_record_witness :
  exists out,
    get_statistics_per_hop int_literal sample_runs = Ok out /\
    forall st, In st out ->
      s_hosts st = map hosts (contributions (s_hop st) sample_runs) /\
      List.length (s_hosts st) =
        List.length (contributions (s_hop st) sample_runs) /\
      List.concat (s_hosts st) =
        flat_map hosts (contributions (s_hop st) sample_runs).
Proof.
  apply (aggregate_hosts_one_entry_per_record int_literal sample_runs).
  reflexivity.
Defined.

(** C4, as stated, fails: a maximum of 1.2346 in the only run gives the
    aggregate maximum 1.235, and so for the minimum. *)
Lemma aggregate_extrema_are_rounded :
  parse_traceroute_output float_literal (text_of [long_sample_line]) [] =
  Ok ([{| avg := Some (123 # 100); hop := "4";
          hosts := [("gw.example.net", "(10.0.0.4)")];
          maximum := Some (6173 # 5000); median := Some (6173 # 5000);
          minimum := Some (6173 # 5000) |}],
      [("4", [6173 # 5000])]) /\
  trstats float_literal int_literal [text_of [long_sample_line]] =
  Ok [{| s_avg := Some (123 # 100); s_hop := "4";
         s_hosts := [[("gw.example.net", "(10.0.0.4)")]];
         s_max := Some (247 # 200); s_med := Some (247 # 200);
         s_min := Some (247 # 200) |}] /\
  ~ 247 # 200 == 6173 # 5000.
Proof. repeat split. intros H. discriminate H. Qed.

(** C4, amended.  For a hop with at least one record added to the
    accumulators, the aggregate maximum is the largest of the maxima of
    those records rounded to 3 decimals, and the aggregate minimum is the
    smallest of their minimum fields rounded to 3 decimals. *)
Theorem aggregate_extrema (py_int : string -> option Z)
  (cd : list (list TracerouteOutput)) :
  aggregable py_int cd = true ->
  exists out,
    get_statistics_per_hop py_int cd = Ok out /\
    forall st, In st out -> contributions (s_hop st) cd <> [] ->
      exists maxs mins M m,
        map maximum (contributions (s_hop st) cd) = map Some maxs /\
        map minimum (contributions (s_hop st) cd) = map Some mins /\
        In M maxs /\ Forall (fun x => x <= M) maxs /\
        In m mins /\ Forall (fun x => m <= x) mins /\
        s_max st = Some (round M 3) /\ s_min st = Some (round m 3).
Proof.
  intros Hagg.
  destruct (get_statistics_per_hop_total py_int cd Hagg) as (out & Hout).
  exists out. split; [exact Hout|].
  apply get_statistics_per_hop_inv in Hout as (Hin & _ & _).
  intros st Hst Hne. apply Hin in Hst as (h & _ & Hs).
  pose proof (hop_stats_hop _ _ _ Hs) as [Hh _]. rewrite Hh in Hne |- *.
  rewrite contributions_unfold in Hne |- *.
  pose proof (hop_stats_acc_of h (List.concat cd)
                (aggregable_complete py_int cd h Hagg)) as Hacc.
  cbv zeta in Hacc.
  destruct (filter contributes (filter (at_hop h) (List.concat cd)))
    as [|c cs]; [congruence|].
  destruct Hacc as (avgs & maxs & meds & mins & mean & M & med & m &
                    _ & Hx & _ & Hn & _ & HM & _ & Hm & Hs').
  rewrite Hs in Hs'. inversion Hs'; subst st; clear Hs'. simpl.
  apply py_max_spec in HM as [HMin HMall].
  apply py_min_spec in Hm as [Hmin Hmall].
  exists maxs, mins, M, m. now repeat split.
Qed.

Lemma aggregate_extrema_witness :
  exists out,
    get_statistics_per_hop int_literal sample_runs = Ok out /\
    forall st, In st out -> contributions (s_hop st) sample_runs <> [] ->
      exists maxs mins M m,
        map maximum (contributions (s_hop st) sample_runs) = map Some maxs /\
        map minimum (contributions (s_hop st) sample_runs) = map Some mins /\
        In M maxs /\ Forall (fun x => x <= M) maxs /\
        In m mins /\ Forall (fun x => m <= x) mins /\
        s_max st = Some (round M 3) /\ s_min st = Some (round m 3).
Proof.
  apply (aggregate_extrema int_literal sample_runs). reflexivity.
Defined.

(** C5 (the code departs from the claim).  A line whose three samples
    average to 0.00 gives a record with all four numbers set; the test
    [if result.avg:] is false on its average 0.0, so nothing of it reaches
    the accumulators and the aggregate of the hop is all null, with no
    host. *)
Theorem zero_average_record_is_not_accumulated :
  parse_traceroute_output float_literal (text_of [zero_avg_line]) [] =
  Ok ([{| avg := Some 0; hop := "1"; hosts := [("localhost", "(127.0.0.1)")];
          maximum := Some (3 # 1000); median := Some (1 # 500);
          minimum := Some (3 # 1000) |}],
      [("1", [1 # 1000; 1 # 500; 3 # 1000])]) /\
  group_by_hop
    [[{| avg := Some 0; hop := "1"; hosts := [("localhost", "(127.0.0.1)")];
         maximum := Some (3 # 1000); median := Some (1 # 500);
         minimum := Some (3 # 1000) |}]] = [("1", empty_hop_data)] /\
  trstats float_literal int_literal [text_of [zero_avg_line]] =
  Ok [null_stats "1"].
Proof. repeat split. Qed.

(** A record whose average is null or zero adds nothing to the
    accumulator of its hop, and any other record adds its four numbers
    and its host list. *)
Lemma add_result_contribution (d : dict HopData) (r : TracerouteOutput) :
  let data := dict_get_default (hop r) empty_hop_data d in
  dict_get (hop r) (add_result d r) =
  Some (if contributes r then
          {| acc_avg := acc_avg data ++
                        match avg r with Some a => [a] | None => [] end;
             acc_max := acc_max data ++ [maximum r];
             acc_med := acc_med data ++ [median r];
             acc_min := acc_min data ++ [minimum r];
             acc_hosts := acc_hosts data ++ [hosts r] |}%list
        else data).
Proof.
  cbv zeta. rewrite add_result_get_same. unfold contributes.
  destruct (avg r) as [a|]; [|reflexivity].
  now destruct (truthy a).
Qed.

(** A timeout line adds the timeout record of its hop, and nothing to
    the latency collector. *)
Lemma parse_hop_timeout (py_float : string -> option Q) (line h : string)
  (rest : list string) (out : list TracerouteOutput) (lat : dict (list Q)) :
  split line = h :: rest -> is_timeout (h :: rest) = true ->
  parse_hop py_float line (out, lat) =
  Ok ((out ++ [timeout_record h])%list, lat).
Proof. unfold parse_hop. intros -> ->. reflexivity. Qed.

(** The aggregate of a hop that occurs and whose records are all timeout
    records: one, all null and without host. *)
Lemma all_timeout_hop_aggregate (py_int : string -> option Z)
  (cd : list (list TracerouteOutput)) (h : string) :
  aggregable py_int cd = true ->
  records_at h cd <> [] ->
  Forall (fun r => r = timeout_record h) (records_at h cd) ->
  exists out,
    get_statistics_per_hop py_int cd = Ok out /\
    In (null_stats h) out /\
    forall st, In st out -> s_hop st = h -> st = null_stats h.
Proof.
  intros Hagg Hne Hall.
  destruct (get_statistics_per_hop_total py_int cd Hagg) as (out & Hout).
  exists out. split; [exact Hout|].
  apply get_statistics_per_hop_inv in Hout as (Hin & _ & _).
  assert (Hcs : filter contributes (filter (at_hop h) (List.concat cd)) = []).
  { unfold records_at in Hall. clear -Hall.
    induction (filter (at_hop h) (List.concat cd)) as [|r l IH];
      [reflexivity|].
    inversion Hall as [|? ? Hr Hl]; subst. simpl. now apply IH. }
  pose proof (hop_stats_acc_of h (List.concat cd)
                (aggregable_complete py_int cd h Hagg)) as Hacc.
  cbv zeta in Hacc. rewrite Hcs in Hacc.
  split.
  - apply Hin. exists h. split; [|exact Hacc].
    unfold records_at in Hne.
    destruct (existsb (at_hop h) (List.concat cd)) eqn:E; [reflexivity|].
    now apply filter_at_hop_none in E.
  - intros st Hst Hh. apply Hin in Hst as (h' & _ & Hs).
    pose proof (hop_stats_hop _ _ _ Hs) as [Hh' _].
    rewrite Hh in Hh'. subst h'. rewrite Hacc in Hs. now inversion Hs.
Qed.

(** C6, as stated, fails: a hop whose two probes time out, in both
    runs, gives no record and has no aggregate; its line does not show
    three timeout markers. *)
Lemma two_probe_timeout_hop_is_dropped :
  is_timeout (split two_probe_timeout_line) = false /\
  parse_traceroute_output float_literal (text_of [two_probe_timeout_line]) []
    = Ok ([], []) /\
  trstats float_literal int_literal
    [text_of [two_probe_timeout_line]; text_of [two_probe_timeout_line]]
    = Ok [] /\
  ~ (exists out st,
       trstats float_literal int_literal
         [text_of [two_probe_timeout_line]; text_of [two_probe_timeout_line]]
       = Ok out /\ In st out).
Proof.
  repeat split. intros (out & st & H & Hst).
  vm_compute in H. inversion H; subst. contradiction.
Qed.

(** C6, amended.  Take the texts of the runs, every line after a header
    holding a token, and every line that gives a record starting with a
    hop that [int] reads.  A hop that starts some line, and only lines on
    which the three tokens after it are the timeout marker, has an
    aggregate in the final sequence: its host list is empty and its four
    numbers are null, and the sequence holds no other aggregate of that
    hop. *)
Theorem timed_out_hop_is_kept (py_float : string -> option Q)
  (py_int : string -> option Z) (files : list string) (h : string) :
  Forall (fun text => Forall nonblank (body_lines text)) files ->
  Forall (fun text =>
            Forall (fun line => emits py_float line = true ->
                                is_some (py_int (first_token line)) = true)
              (body_lines text)) files ->
  Exists (fun text =>
            Exists (fun line => first_token line = h) (body_lines text))
    files ->
  Forall (fun text =>
            Forall (fun line => first_token line = h ->
                                is_timeout (split line) = true)
              (body_lines text)) files ->
  exists out,
    trstats py_float py_int files = Ok out /\
    In (null_stats h) out /\
    forall st, In st out -> s_hop st = h -> st = null_stats h.
Proof.
  intros Hnb Hint Hex Hto.
  destruct (use_test_directory_total py_float files Hnb) as (cd & lat & Hutd).
  pose proof (use_test_directory_runs py_float _ _ _ Hutd) as Hruns.
  rewrite Forall_forall in Hint, Hto.
  (* every run is the record list of the lines of a file *)
  assert (Hrun : forall run, In run cd ->
            exists text,
              In text files /\
              Forall (fun r => exists l,
                        In l (body_lines text) /\ first_token l = hop r /\
                        (is_timeout (split l) = true ->
                         r = timeout_record (hop r)) /\
                        (r = timeout_record (hop r) \/
                         exists times, sample_record times r) /\
                        emits py_float l = true) run /\
              (forall l, In l (body_lines text) ->
                         is_timeout (split l) = true ->
                         In (timeout_record (first_token l)) run)).
  { intros run Hrun.
    destruct (Forall2_In_r _ _ _ _ Hruns Hrun)
      as (text & Htext & lat0 & lat1 & Hparse).
    apply for_each_parse_hop_records in Hparse as (recs & Heq & Hall & Hlines).
    simpl in Heq. subst recs. exists text. now repeat split. }
  (* nothing is raised by the aggregator *)
  assert (Hagg : aggregable py_int cd = true).
  { unfold aggregable. apply forallb_forall. intros r Hr.
    apply in_concat in Hr as (run & Hrun' & Hr).
    destruct (Hrun run Hrun') as (text & Htext & Hall & _).
    rewrite Forall_forall in Hall.
    destruct (Hall r Hr) as (l & Hl & Hfirst & _ & Hshape & Hemits).
    pose proof (Hint text Htext) as Hi. rewrite Forall_forall in Hi.
    specialize (Hi l Hl Hemits). rewrite Hfirst in Hi. rewrite Hi. simpl.
    destruct Hshape as [->|(times & _ & _ & M & med & _ & _ & Hx & Hn & Hd)].
    - reflexivity.
    - unfold complete. rewrite Hx, Hn, Hd. now destruct (contributes r). }
  destruct (all_timeout_hop_aggregate py_int cd h Hagg) as (out & Hout & Hres).
  - (* the hop occurs *)
    apply Exists_exists in Hex as (text & Htext & Hex).
    apply Exists_exists in Hex as (l & Hl & Hfirst).
    pose proof (Hto text Htext) as Ht. rewrite Forall_forall in Ht.
    specialize (Ht l Hl Hfirst).
    destruct (Forall2_In_l _ _ _ _ Hruns Htext)
      as (run & Hrun' & lat0 & lat1 & Hparse).
    apply for_each_parse_hop_records in Hparse as (recs & Heq & _ & Hlines).
    simpl in Heq. subst recs. specialize (Hlines l Hl Ht).
    rewrite Hfirst in Hlines.
    assert (Hin : In (timeout_record h) (records_at h cd)).
    { apply filter_In. split; [|apply String.eqb_refl].
      apply in_concat. eauto. }
    intros E. rewrite E in Hin. exact Hin.
  - (* all its records are timeout records *)
    apply Forall_forall. intros r Hr.
    apply filter_In in Hr as [Hr Hh]. apply String.eqb_eq in Hh.
    apply in_concat in Hr as (run & Hrun' & Hr).
    destruct (Hrun run Hrun') as (text & Htext & Hall & _).
    rewrite Forall_forall in Hall.
    destruct (Hall r Hr) as (l & Hl & Hfirst & Htimeout & _).
    pose proof (Hto text Htext) as Ht. rewrite Forall_forall in Ht.
    rewrite <- Hh. apply Htimeout. apply (Ht l Hl). congruence.
  - exists out. split; [|exact Hres].
    unfold trstats. rewrite Hutd. exact Hout.
Qed.

(** A statement on every element of a given list, such as the lines
    after the header of a text: the list is computed, and the statement
    is left for each of its elements. *)
Ltac on_each_line :=
  let l := fresh "line" in
  let Hl := fresh "Hline" in
  apply Forall_forall; intros l Hl; vm_compute in Hl;
  repeat (destruct Hl as [<-|Hl]); try contradiction.

Lemma timed_out_hop_is_kept_witness :
  exists out,
    trstats float_literal int_literal sample_files = Ok out /\
    In (null_stats "3") out /\
    forall st, In st out -> s_hop st = "3" -> st = null_stats "3".
Proof.
  apply (timed_out_hop_is_kept float_literal int_literal sample_files "3");
    unfold sample_files.
  - repeat (apply Forall_cons;
            [on_each_line; vm_compute; discriminate|]).
    apply Forall_nil.
  - repeat (apply Forall_cons;
            [on_each_line; intros _; vm_compute; reflexivity|]).
    apply Forall_nil.
  - apply Exists_cons_hd. apply Exists_exists. exists timeout_line.
    split; [vm_compute; auto 10 | reflexivity].
  - repeat (apply Forall_cons;
            [on_each_line; intros H;
             first [vm_compute; reflexivity
                   | vm_compute in H; discriminate H]|]).
    apply Forall_nil.
Defined.

(** C7, as stated, fails: the hops "1" and "01" are two keys of the
    grouping and have the same number, so the output holds two aggregates
    of hop number 1 and is not strictly ascending. *)
Lemma equal_hop_numbers_are_not_merged :
  trstats float_literal int_literal [text_of [hop_1_line; hop_01_line]] =
  Ok [{| s_avg := Some 1; s_hop := "1";
         s_hosts := [[("a.example.net", "(10.0.0.1)")]];
         s_max := Some 1; s_med := Some 1; s_min := Some 1 |};
      {| s_avg := Some 2; s_hop := "01";
         s_hosts := [[("b.example.net", "(10.0.0.2)")]];
         s_max := Some 2; s_med := Some 2; s_min := Some 2 |}] /\
  int_literal "1" = Some 1%Z /\ int_literal "01" = Some 1%Z /\
  ~ StronglySorted (hop_lt int_literal)
      [{| s_avg := Some 1; s_hop := "1";
          s_hosts := [[("a.example.net", "(10.0.0.1)")]];
          s_max := Some 1; s_med := Some 1; s_min := Some 1 |};
       {| s_avg := Some 2; s_hop := "01";
          s_hosts := [[("b.example.net", "(10.0.0.2)")]];
          s_max := Some 2; s_med := Some 2; s_min := Some 2 |}].
Proof.
  repeat split. intros H. inversion H as [|? ? _ Hall]; subst.
  inversion Hall as [|? ? Hlt _]; subst.
  unfold hop_lt in Hlt. vm_compute in Hlt. discriminate Hlt.
Qed.

Lemma StronglySorted_strict (py_int : string -> option Z)
  (out : list HopStats) :
  StronglySorted (hop_le py_int) out ->
  NoDup (map s_hop out) ->
  (forall a b, In a out -> In b out ->
               py_int (s_hop a) = py_int (s_hop b) -> s_hop a = s_hop b) ->
  StronglySorted (hop_lt py_int) out.
Proof.
  induction 1 as [|x l Hs IH Hall]; intros Hnd Hinj; [constructor|].
  simpl in Hnd. inversion Hnd as [|? ? Hnotin Hnd']; subst.
  constructor.
  - apply IH; [exact Hnd'|]. intros a b Ha Hb. apply Hinj; now right.
  - apply Forall_forall. intros y Hy.
    pose proof (proj1 (Forall_forall _ _) Hall y Hy) as Hle.
    unfold hop_le in Hle. unfold hop_lt.
    destruct (py_int (s_hop x)) as [kx|] eqn:Ex; [|contradiction].
    destruct (py_int (s_hop y)) as [ky|] eqn:Ey; [|contradiction].
    destruct (Z.eq_dec kx ky) as [Heq|Hneq]; [|lia].
    exfalso. apply Hnotin.
    rewrite (Hinj x y); [now apply in_map | now left | now right |].
    rewrite Ex, Ey. now subst.
Qed.

Lemma remove_singleton_same (a : string) : remove string_dec a [a] = [].
Proof. simpl. destruct (string_dec a a); [reflexivity | congruence]. Qed.

Lemma remove_singleton_other (a h : string) :
  h <> a -> remove string_dec a [h] = [h].
Proof. intros H. simpl. destruct (string_dec a h); [congruence | reflexivity]. Qed.

Lemma first_appearance_snoc_new (l : list string) (h : string) :
  ~ In h l -> first_appearance (l ++ [h]) = (first_appearance l ++ [h])%list.
Proof.
  induction l as [|a l IH]; intros H; simpl; [reflexivity|].
  rewrite IH by (intros Hin; apply H; now right).
  rewrite remove_app, remove_singleton_other; [reflexivity|].
  intros ->. apply H. now left.
Qed.

Lemma first_appearance_snoc_old (l : list string) (h : string) :
  In h l -> first_appearance (l ++ [h]) = first_appearance l.
Proof.
  induction l as [|a l IH]; intros H; simpl; [contradiction|].
  destruct (in_dec string_dec h l) as [Hin|Hnotin].
  - now rewrite IH.
  - destruct H as [->|H]; [|contradiction].
    rewrite first_appearance_snoc_new by assumption.
    now rewrite remove_app, remove_singleton_same, app_nil_r.
Qed.

(** The keys of the grouping are the hops in the order of their first
    appearance. *)
Lemma group_keys_first_appearance (xs : list TracerouteOutput) :
  map fst (fold_left add_result xs []) = first_appearance (map hop xs).
Proof.
  induction xs as [|x xs IH] using rev_ind; [reflexivity|].
  rewrite fold_left_app, map_app. simpl. rewrite add_result_keys.
  unfold dict_mem. rewrite fold_add_result_get.
  destruct (existsb (at_hop (hop x)) xs) eqn:E.
  - rewrite first_appearance_snoc_old; [exact IH|].
    apply existsb_at_hop in E as (r & Hr & <-). now apply in_map.
  - rewrite first_appearance_snoc_new; [now rewrite IH|].
    intros Hin. apply in_map_iff in Hin as (r & Hh & Hr).
    assert (Hex : existsb (at_hop (hop x)) xs = true)
      by (apply existsb_at_hop; eauto).
    congruence.
Qed.

(** The sort is stable: the items of one key keep their order. *)
Lemma filter_insert_by_key {A : Type} (n : Z) (x : Z * A)
  (l : list (Z * A)) :
  filter (fun a => Z.eqb (fst a) n)
    (insert_by (fun a b => Z.ltb (fst a) (fst b)) x l) =
  filter (fun a => Z.eqb (fst a) n) (x :: l).
Proof.
  induction l as [|y l IH]; [reflexivity|].
  cbn [insert_by]. destruct (Z.ltb_spec (fst y) (fst x)) as [Hlt|Hge];
    [|reflexivity].
  cbn [filter] in *. rewrite IH.
  destruct (Z.eqb_spec (fst y) n) as [Hy|Hy];
    destruct (Z.eqb_spec (fst x) n) as [Hx|Hx]; try reflexivity.
  lia.
Qed.

Lemma filter_sort_by_key {A : Type} (n : Z) (l : list (Z * A)) :
  filter (fun a => Z.eqb (fst a) n)
    (sort_by (fun a b => Z.ltb (fst a) (fst b)) l) =
  filter (fun a => Z.eqb (fst a) n) l.
Proof.
  induction l as [|x l IH]; [reflexivity|].
  cbn [sort_by]. rewrite filter_insert_by_key. cbn [filter].
  now rewrite IH.
Qed.

Lemma sort_by_hop_stable (py_int : string -> option Z)
  (l out : list HopStats) (n : Z) :
  sort_by_hop py_int l = Ok out ->
  filter (fun st => hop_number_is py_int n (s_hop st)) out =
  filter (fun st => hop_number_is py_int n (s_hop st)) l.
Proof.
  unfold sort_by_hop. intros H.
  apply bind_Ok_inv in H as (keyed & Hk & H). inversion H; subst out; clear H.
  apply map_result_Forall2 in Hk.
  assert (Hsnd : map snd keyed = l).
  { clear -Hk. induction Hk as [|x kx l keyed Hx Hrest IH]; simpl;
      [reflexivity|].
    destruct (py_int (s_hop x)); [|discriminate].
    injection Hx as <-. simpl. now rewrite IH. }
  assert (Hkey : forall kx, In kx keyed ->
                            py_int (s_hop (snd kx)) = Some (fst kx)).
  { intros kx Hin. destruct (Forall2_In_r _ _ _ _ Hk Hin) as (x & _ & Hx).
    destruct (py_int (s_hop x)) eqn:E; inversion Hx; subst. exact E. }
  assert (Hmap : forall L : list (Z * HopStats),
             (forall kx, In kx L -> py_int (s_hop (snd kx)) = Some (fst kx)) ->
             filter (fun st => hop_number_is py_int n (s_hop st)) (map snd L)
             = map snd (filter (fun a => Z.eqb (fst a) n) L)).
  { clear. induction L as [|kx L IH]; intros HL; [reflexivity|].
    cbn [map filter]. unfold hop_number_is at 1.
    rewrite (HL kx) by now left.
    rewrite IH by (intros; apply HL; now right).
    now destruct (Z.eqb (fst kx) n). }
  rewrite Hmap.
  - rewrite filter_sort_by_key, <- Hmap by exact Hkey. now rewrite Hsnd.
  - intros kx Hin. apply Hkey.
    now apply (Permutation_in _
                 (Permutation_sym
                    (sort_by_perm
                       (fun a b : Z * HopStats => Z.ltb (fst a) (fst b))
                       keyed))).
Qed.

Lemma get_statistics_per_hop_stable (py_int : string -> option Z)
  (cd : list (list TracerouteOutput)) (out : list HopStats) (n : Z) :
  get_statistics_per_hop py_int cd = Ok out ->
  map s_hop (filter (fun st => hop_number_is py_int n (s_hop st)) out) =
  filter (hop_number_is py_int n)
    (first_appearance (map hop (List.concat cd))).
Proof.
  unfold get_statistics_per_hop. intros H.
  apply bind_Ok_inv in H as (stats & Hstats & Hsort).
  rewrite (sort_by_hop_stable _ _ _ n Hsort).
  apply map_result_Forall2 in Hstats.
  assert (Hkeys : map s_hop stats = map fst (group_by_hop cd)).
  { clear -Hstats.
    induction Hstats as [|[h data] st l l' Hst Hrest IH]; simpl;
      [reflexivity|].
    apply hop_stats_hop in Hst as [-> _]. now rewrite IH. }
  rewrite <- group_keys_first_appearance, <- group_by_hop_concat, <- Hkeys.
  clear. induction stats as [|st stats IH]; [reflexivity|].
  cbn [map filter]. destruct (hop_number_is py_int n (s_hop st));
    cbn [map]; now rewrite IH.
Qed.

(** C7, amended.  On an input on which the aggregator raises nothing the
    output is in ascending order of [int] of the hop, in whatever order
    the hops came, and no hop string occurs twice; the hop strings of one
    number stay separate aggregates, in the order of their first
    appearance in the input.  The order is strict when the hop strings
    of the output have pairwise distinct numbers. *)
Theorem aggregates_sorted_by_hop_number (py_int : string -> option Z)
  (cd : list (list TracerouteOutput)) :
  aggregable py_int cd = true ->
  exists out,
    get_statistics_per_hop py_int cd = Ok out /\
    StronglySorted (hop_le py_int) out /\
    NoDup (map s_hop out) /\
    (forall n,
       map s_hop (filter (fun st => hop_number_is py_int n (s_hop st)) out) =
       filter (hop_number_is py_int n)
         (first_appearance (map hop (List.concat cd)))) /\
    ((forall a b, In a out -> In b out ->
                  py_int (s_hop a) = py_int (s_hop b) -> s_hop a = s_hop b) ->
     StronglySorted (hop_lt py_int) out).
Proof.
  intros Hagg.
  destruct (get_statistics_per_hop_total py_int cd Hagg) as (out & Hout).
  exists out. split; [exact Hout|].
  pose proof (fun n => get_statistics_per_hop_stable py_int cd out n Hout)
    as Hstable.
  apply get_statistics_per_hop_inv in Hout as (_ & Hnd & Hs).
  repeat split; try assumption.
  now apply StronglySorted_strict.
Qed.

Lemma aggregates_sorted_by_hop_number_witness :
  exists out,
    get_statistics_per_hop int_literal sample_runs = Ok out /\
    StronglySorted (hop_le int_literal) out /\
    NoDup (map s_hop out) /\
    (forall n,
       map s_hop
         (filter (fun st => hop_number_is int_literal n (s_hop st)) out) =
       filter (hop_number_is int_literal n)
         (first_appearance (map hop (List.concat sample_runs)))) /\
    ((forall a b, In a out -> In b out ->
                  int_literal (s_hop a) = int_literal (s_hop b) ->
                  s_hop a = s_hop b) ->
     StronglySorted (hop_lt int_literal) out).
Proof.
  apply (aggregates_sorted_by_hop_number int_literal sample_runs).
  reflexivity.
Defined.

(** The hops "01" and "1", in this order of first appearance, come out
    in this order. *)
Lemma equal_hop_numbers_keep_first_appearance :
  exists out,
    trstats float_literal int_literal
      [text_of [hop_2_line; hop_01_line; hop_1_line; hop_01_line]] = Ok out /\
    map s_hop out = ["01"; "1"; "2"].
Proof. eexists. split; vm_compute; reflexivity. Qed.

(** On the sample runs the hops come out as 1, 2, 3, 4, 10. *)
Lemma sample_runs_hop_order :
  exists out,
    get_statistics_per_hop int_literal sample_runs = Ok out /\
    map s_hop out = ["1"; "2"; "3"; "4"; "10"].
Proof. eexists. split; vm_compute; reflexivity. Qed.





(** ** Further properties of the parser *)

Lemma string_app_nil_r (s : string) : (s ++ "")%string = s.
Proof. induction s as [|c s IH]; simpl; [reflexivity | now rewrite IH]. Qed.

Lemma string_app_assoc (a b c : string) :
  ((a ++ b) ++ c)%string = (a ++ (b ++ c))%string.
Proof. induction a as [|x a IH]; simpl; [reflexivity | now rewrite IH]. Qed.

Lemma splitlines_from_no_linebreak (h cur : string) :
  no_linebreak h = true -> splitlines_from cur h = flush (cur ++ h).
Proof.
  revert cur; induction h as [|c h IH]; intros cur H; simpl in *.
  - now rewrite string_app_nil_r.
  - apply andb_true_iff in H as [Hc Hh]. apply negb_true_iff in Hc.
    rewrite Hc, (IH _ Hh), string_app_assoc. reflexivity.
Qed.

Lemma splitlines_from_first_line (h cur rest : string) :
  no_linebreak h = true ->
  splitlines_from cur (h ++ nl ++ rest) =
  (cur ++ h)%string :: splitlines_from "" rest.
Proof.
  revert cur; induction h as [|c h IH]; intros cur H; simpl in *.
  - rewrite string_app_nil_r. now destruct rest.
  - apply andb_true_iff in H as [Hc Hh]. apply negb_true_iff in Hc.
    rewrite Hc, (IH _ Hh), string_app_assoc. reflexivity.
Qed.

Section ParsingMore.

Variable py_float : string -> option Q.

Lemma parse_hop_raise (line : string)
  (st : list TracerouteOutput * dict (list Q)) (e : exn) :
  parse_hop py_float line st = Raise e -> e = IndexError /\ split line = [].
Proof.
  intros H. destruct (split line) as [|h rest] eqn:Es.
  - rewrite (parse_hop_blank py_float line st Es) in H. now inversion H.
  - destruct (parse_hop_total py_float line st) as (st' & Hst).
    + unfold nonblank. rewrite Es. discriminate.
    + rewrite Hst in H. discriminate.
Qed.

Lemma for_each_parse_hop_raise (lines : list string)
  (st : list TracerouteOutput * dict (list Q)) (e : exn) :
  for_each (parse_hop py_float) lines st = Raise e ->
  e = IndexError /\ Exists (fun l => split l = []) lines.
Proof.
  revert st; induction lines as [|line lines IH]; intros st H; simpl in H;
    [discriminate|].
  destruct (parse_hop py_float line st) as [st'|e'] eqn:E; simpl in H.
  - destruct (IH _ H) as [-> Hex]. split; [reflexivity | now right].
  - inversion H; subst e'. apply parse_hop_raise in E as [-> Hb].
    split; [reflexivity | now left].
Qed.

Lemma for_each_parse_hop_blank (lines : list string)
  (st : list TracerouteOutput * dict (list Q)) :
  Exists (fun l => split l = []) lines ->
  for_each (parse_hop py_float) lines st = Raise IndexError.
Proof.
  revert st; induction lines as [|line lines IH]; intros st H; simpl.
  - inversion H.
  - destruct (parse_hop py_float line st) as [st'|e] eqn:E; simpl.
    + apply IH. inversion H as [? ? Hb|]; subst; [|assumption].
      rewrite (parse_hop_blank py_float line st Hb) in E. discriminate.
    + now apply parse_hop_raise in E as [-> _].
Qed.

(** X1.  The parser raises exactly when a line after the header holds no
    token (a blank line, or one of spaces only), and then it is the
    [IndexError] of [parts[0]]: no other exception leaves it, whatever
    [float] does. *)
Theorem parser_raises_exactly_on_blank_line (text : string)
  (lat : dict (list Q)) :
  (forall e, parse_traceroute_output py_float text lat = Raise e ->
             e = IndexError) /\
  (parse_traceroute_output py_float text lat = Raise IndexError <->
   Exists (fun l => split l = []) (body_lines text)).
Proof.
  unfold parse_traceroute_output, body_lines. split; [|split].
  - intros e H. now apply for_each_parse_hop_raise in H.
  - intros H. now apply for_each_parse_hop_raise in H.
  - apply for_each_parse_hop_blank.
Qed.

(** X2.  The first line is cut off whatever it holds, a hop line too: a
    text is parsed as the lines after its first line break, and a text
    with no line break at all gives no record and raises nothing. *)
Theorem first_line_is_discarded (h body : string) (lat : dict (list Q)) :
  no_linebreak h = true ->
  parse_traceroute_output py_float (h ++ nl ++ body) lat =
    for_each (parse_hop py_float) (splitlines body) ([], lat) /\
  parse_traceroute_output py_float h lat = Ok ([], lat).
Proof.
  intros H. unfold parse_traceroute_output, splitlines. split.
  - now rewrite (splitlines_from_first_line h "" body H).
  - rewrite (splitlines_from_no_linebreak h "" H). simpl.
    now destruct h.
Qed.

Lemma for_each_parse_hop_hops (lines : list string)
  (out0 out : list TracerouteOutput) (lat0 lat : dict (list Q)) :
  for_each (parse_hop py_float) lines (out0, lat0) = Ok (out, lat) ->
  map hop out =
  (map hop out0 ++ map first_token (filter (emits py_float) lines))%list.
Proof.
  revert out0 lat0; induction lines as [|line lines IH]; intros out0 lat0 H;
    simpl in H.
  - inversion H; subst. simpl. now rewrite app_nil_r.
  - apply bind_Ok_inv in H as ([out1 lat1] & Hline & Hrest).
    apply IH in Hrest. rewrite Hrest. clear Hrest IH.
    apply parse_hop_inv in Hline as (h & rest & Hsplit & Hcase).
    assert (Hfirst : first_token line = h)
      by (unfold first_token; now rewrite Hsplit).
    assert (He : emits py_float line =
                 is_timeout (h :: rest) ||
                 match fst (scan py_float (h :: rest)) with
                 | [] => false
                 | _ :: _ => true
                 end) by (unfold emits; now rewrite Hsplit).
    simpl. rewrite He.
    destruct Hcase as [[Ht ->]|[(Ht & Hs & ->)|(Ht & r & -> & Hh & _ & Hr)]];
      rewrite Ht; simpl.
    + rewrite map_app, <- app_assoc, Hfirst. reflexivity.
    + now rewrite Hs.
    + destruct Hr as (Hne & _).
      destruct (fst (scan py_float (h :: rest))); [congruence|].
      simpl. rewrite map_app, <- app_assoc, Hfirst. simpl.
      now rewrite Hh.
Qed.

(** X3.  The records of a run follow its lines: one record for every
    line that is a timeout line or has a sample, in the order of the
    lines, with the first token of the line as its hop; a hop that comes
    twice in the text comes twice in the records. *)
Theorem records_follow_lines (text : string) (lat : dict (list Q)) :
  Forall nonblank (body_lines text) ->
  exists out lat',
    parse_traceroute_output py_float text lat = Ok (out, lat') /\
    map hop out =
      map first_token (filter (emits py_float) (body_lines text)).
Proof.
  intros Hnb.
  destruct (parse_traceroute_output_total py_float text lat Hnb)
    as (out & lat' & H).
  exists out, lat'. split; [exact H|].
  unfold parse_traceroute_output in H.
  now apply for_each_parse_hop_hops in H.
Qed.



End ParsingMore.

Lemma parser_raises_exactly_on_blank_line_witness :
  parse_traceroute_output float_literal
    (text_of [scenario_line; "   "; timeout_line]) [] = Raise IndexError.
Proof.
  apply (proj2 (parser_raises_exactly_on_blank_line float_literal
                  (text_of [scenario_line; "   "; timeout_line]) [])).
  apply Exists_cons_tl, Exists_cons_hd. reflexivity.
Defined.

Lemma first_line_is_discarded_witness :
  parse_traceroute_output float_literal
    (scenario_line ++ nl ++ timeout_line) [] =
    for_each (parse_hop float_literal) (splitlines timeout_line) ([], []) /\
  parse_traceroute_output float_literal scenario_line [] = Ok ([], []).
Proof.
  apply (first_line_is_discarded float_literal scenario_line timeout_line []).
  reflexivity.
Defined.

Lemma records_follow_lines_witness :
  exists out lat',
    parse_traceroute_output float_literal
      (text_of [scenario_line; hosts_only_line; timeout_line; scenario_line])
      [] = Ok (out, lat') /\
    map hop out =
      map first_token
        (filter (emits float_literal)
           (body_lines
              (text_of [scenario_line; hosts_only_line; timeout_line;
                        scenario_line]))).
Proof.
  apply (records_follow_lines float_literal).
  vm_compute. repeat constructor; discriminate.
Defined.

Section CollectorMore.

Variable py_float : string -> option Q.

Lemma parse_hop_collector (line : string) (out out' : list TracerouteOutput)
  (lat lat' : dict (list Q)) (h : string) :
  parse_hop py_float line (out, lat) = Ok (out', lat') ->
  dict_get_default h [] lat' =
    (dict_get_default h [] lat ++ samples_for py_float h line)%list /\
  (dict_get h lat' = None <->
   dict_get h lat = None /\ samples_for py_float h line = []).
Proof.
  unfold parse_hop, samples_for, first_token.
  destruct (split line) as [|hn rest]; [discriminate|]. simpl hd.
  destruct (is_timeout (hn :: rest)).
  - intros H. inversion H; subst. rewrite andb_false_r, app_nil_r.
    split; [reflexivity | tauto].
  - rewrite andb_true_r.
    destruct (scan py_float (hn :: rest)) as [times hs]. simpl fst.
    destruct times as [|t times].
    + intros H. inversion H; subst.
      destruct (String.eqb hn h); rewrite app_nil_r;
        (split; [reflexivity | tauto]).
    + intros H.
      apply bind_Ok_inv in H as (M & _ & H).
      apply bind_Ok_inv in H as (M' & _ & H).
      apply bind_Ok_inv in H as (med & _ & H).
      inversion H; subst; clear H.
      destruct (String.eqb hn h) eqn:E.
      * apply String.eqb_eq in E; subst hn.
        unfold dict_get_default at 1. rewrite dict_get_set_same.
        split; [reflexivity|]. split; [discriminate|].
        intros [_ Hnil]. discriminate Hnil.
      * apply String.eqb_neq in E.
        unfold dict_get_default. rewrite dict_get_set_other by congruence.
        rewrite app_nil_r. split; [reflexivity | tauto].
Qed.

Lemma for_each_parse_hop_collector (lines : list string)
  (out0 out : list TracerouteOutput) (lat0 lat : dict (list Q)) (h : string) :
  for_each (parse_hop py_float) lines (out0, lat0) = Ok (out, lat) ->
  dict_get_default h [] lat =
    (dict_get_default h [] lat0 ++
     flat_map (samples_for py_float h) lines)%list /\
  (dict_get h lat = None <->
   dict_get h lat0 = None /\ flat_map (samples_for py_float h) lines = []).
Proof.
  revert out0 lat0; induction lines as [|line lines IH]; intros out0 lat0 H;
    simpl in H.
  - inversion H; subst. simpl. rewrite app_nil_r. split; [reflexivity|tauto].
  - apply bind_Ok_inv in H as ([out1 lat1] & Hline & Hrest).
    apply IH in Hrest as [Hval Hnone].
    apply (parse_hop_collector _ _ _ _ _ h) in Hline as [Hval1 Hnone1].
    simpl. split.
    + now rewrite Hval, Hval1, app_assoc.
    + rewrite Hnone, Hnone1. split.
      * intros [[H0 H1] H2]. split; [exact H0|]. now rewrite H1, H2.
      * intros [H0 H1]. apply app_eq_nil in H1 as [H1 H2]. tauto.
Qed.

(** X5.  What a run adds to the latency collector: the entry of a hop is
    what it was before the run, followed by the samples of the lines of
    that hop that are not timeout lines, in line order, every probe
    counted; and a hop has an entry after the run only if it had one
    before or one of its lines gave a sample. *)
Theorem collector_after_a_run (text : string) (lat : dict (list Q)) :
  Forall nonblank (body_lines text) ->
  exists out lat',
    parse_traceroute_output py_float text lat = Ok (out, lat') /\
    forall h,
      dict_get_default h [] lat' =
        (dict_get_default h [] lat ++
         flat_map (samples_for py_float h) (body_lines text))%list /\
      (dict_get h lat' = None <->
       dict_get h lat = None /\
       flat_map (samples_for py_float h) (body_lines text) = []).
Proof.
  intros Hnb.
  destruct (parse_traceroute_output_total py_float text lat Hnb)
    as (out & lat' & H).
  exists out, lat'. split; [exact H|].
  intros h. unfold parse_traceroute_output in H.
  now apply for_each_parse_hop_collector with (h := h) in H.
Qed.

Lemma parse_hop_same_records (line : string) (out : list TracerouteOutput) :
  (exists e, forall lat, parse_hop py_float line (out, lat) = Raise e) \/
  (exists out', forall lat,
     exists lat', parse_hop py_float line (out, lat) = Ok (out', lat')).
Proof.
  unfold parse_hop. destruct (split line) as [|hn rest].
  { left. eexists. intros lat. reflexivity. }
  destruct (is_timeout (hn :: rest)).
  { right. eexists. intros lat. eexists. reflexivity. }
  destruct (scan py_float (hn :: rest)) as [times hs].
  destruct times as [|t times].
  { right. eexists. intros lat. eexists. reflexivity. }
  destruct (py_max (t :: times)) as [M|e].
  2:{ left. eexists. intros lat. reflexivity. }
  destruct (statistics_median (t :: times)) as [med|e].
  2:{ left. eexists. intros lat. reflexivity. }
  right. eexists. intros lat. eexists. reflexivity.
Qed.

Lemma for_each_parse_hop_same_records (lines : list string)
  (out : list TracerouteOutput) (lat1 lat2 : dict (list Q)) :
  bind (for_each (parse_hop py_float) lines (out, lat1))
       (fun st => Ok (fst st)) =
  bind (for_each (parse_hop py_float) lines (out, lat2))
       (fun st => Ok (fst st)).
Proof.
  revert out lat1 lat2; induction lines as [|line lines IH];
    intros out lat1 lat2; cbn [for_each]; [reflexivity|].
  destruct (parse_hop_same_records line out) as [(e & He)|(out' & Hout)].
  - now rewrite !He.
  - destruct (Hout lat1) as (l1 & ->). destruct (Hout lat2) as (l2 & ->).
    cbn [bind]. apply IH.
Qed.

(** X6.  The records of a run do not depend on what the latency
    collector holds when the run is parsed, and neither does the
    exception: the collector, shared by all the runs, is only written. *)
Theorem records_do_not_depend_on_collector (text : string)
  (lat1 lat2 : dict (list Q)) :
  bind (parse_traceroute_output py_float text lat1)
       (fun st => Ok (fst st)) =
  bind (parse_traceroute_output py_float text lat2)
       (fun st => Ok (fst st)).
Proof. apply for_each_parse_hop_same_records. Qed.

End CollectorMore.

Lemma collector_after_a_run_witness :
  exists out lat',
    parse_traceroute_output float_literal
      (text_of [scenario_line; timeout_line; scenario_line])
      [("5", [1 # 2])] = Ok (out, lat') /\
    forall h,
      dict_get_default h [] lat' =
        (dict_get_default h [] [("5", [1 # 2])] ++
         flat_map (samples_for float_literal h)
           (body_lines (text_of [scenario_line; timeout_line;
                                 scenario_line])))%list /\
      (dict_get h lat' = None <->
       dict_get h [("5", [1 # 2])] = None /\
       flat_map (samples_for float_literal h)
         (body_lines (text_of [scenario_line; timeout_line; scenario_line]))
       = []).
Proof.
  apply (collector_after_a_run float_literal).
  vm_compute. repeat constructor; discriminate.
Defined.

(** ** Further properties of the records *)

Lemma nth_sorted_In (l : list Q) (k : nat) :
  (k < List.length l)%nat -> In (nth k (sorted l) 0) l.
Proof.
  intros Hk. apply (Permutation_in _ (Permutation_sym (sort_by_perm Qltb l))).
  apply nth_In. unfold sorted. now rewrite sort_by_length.
Qed.

Lemma statistics_median_le (l : list Q) (m hi : Q) :
  Forall (fun x => x <= hi) l -> statistics_median l = Ok m -> m <= hi.
Proof.
  intros Hall. rewrite Forall_forall in Hall.
  assert (Hlen : List.length (sorted l) = List.length l)
    by (unfold sorted; apply sort_by_length).
  unfold statistics_median. cbv zeta. rewrite !Hlen.
  destruct (Nat.eqb (List.length l) 0) eqn:E0; [discriminate|].
  apply Nat.eqb_neq in E0.
  assert (Hhalf : (List.length l / 2 < List.length l)%nat)
    by (apply Nat.div_lt; lia).
  destruct (Nat.eqb (List.length l mod 2) 1) eqn:E1; intros H;
    injection H as <-.
  - apply Hall. now apply nth_sorted_In.
  - assert (Ha : nth (List.length l / 2 - 1) (sorted l) 0 <= hi)
      by (apply Hall, nth_sorted_In; lia).
    assert (Hb : nth (List.length l / 2) (sorted l) 0 <= hi)
      by (apply Hall, nth_sorted_In; lia).
    apply Qle_shift_div_r; [reflexivity|].
    assert (H2 : hi * 2 == hi + hi) by ring.
    rewrite H2. now apply Qplus_le_compat.
Qed.

(** X7.  When the samples of a text lie between -2^1022 and 2^1022, so
    that the sum of two of them is a double, in every record of the run
    the median does not exceed the maximum: the maximum field is the
    largest sample of the line and the median is a sample or the mean of
    two. *)
Theorem parsed_median_le_maximum (py_float : string -> option Q)
  (text : string) (lat : dict (list Q)) :
  Forall nonblank (body_lines text) ->
  Forall (fun line =>
            Forall (fun t => - sum_safe <= t /\ t <= sum_safe)
              (fst (scan py_float (split line)))) (body_lines text) ->
  exists out lat',
    parse_traceroute_output py_float text lat = Ok (out, lat') /\
    Forall (fun r => forall m M,
              median r = Some m -> maximum r = Some M -> m <= M) out.
Proof.
  intros Hnb _.
  destruct (parse_traceroute_output_total py_float text lat Hnb)
    as (out & lat' & H).
  exists out, lat'. split; [exact H|].
  apply parse_traceroute_output_records in H.
  eapply Forall_impl; [|exact H].
  intros r [Hr|(times & _ & _ & M0 & med0 & HM & Hmed & Hx & _ & Hd)] m M Hm HM'.
  - rewrite Hr in Hm. discriminate Hm.
  - rewrite Hd in Hm. rewrite Hx in HM'. injection Hm as <-.
    injection HM' as <-. apply py_max_spec in HM as [_ Hall].
    now apply (statistics_median_le times).
Qed.

Lemma parsed_median_le_maximum_witness :
  exists out lat',
    parse_traceroute_output float_literal
      (text_of [scenario_line; timeout_line; two_hosts_line]) []
    = Ok (out, lat') /\
    Forall (fun r => forall m M,
              median r = Some m -> maximum r = Some M -> m <= M) out.
Proof.
  apply (parsed_median_le_maximum float_literal).
  - on_each_line; vm_compute; discriminate.
  - on_each_line; on_each_line; split; vm_compute; discriminate.
Defined.

(** ** Further properties of the aggregator *)

Lemma map_result_raise {A B : Type} (f : A -> result B) (l : list A)
  (e : exn) :
  map_result f l = Raise e -> exists x, In x l /\ f x = Raise e.
Proof.
  induction l as [|x l IH]; simpl; [discriminate|].
  destruct (f x) as [y|e'] eqn:E; simpl.
  - destruct (map_result f l) as [ys|e'']; simpl; [discriminate|].
    intros H. inversion H; subst. destruct IH as (x' & Hx' & Hf);
      [reflexivity|]. exists x'. split; [now right | exact Hf].
  - intros H. inversion H; subst. exists x. split; [now left | exact E].
Qed.

Section AggregationMore.

Variable py_int : string -> option Z.

Lemma group_stats_total (cd : list (list TracerouteOutput)) :
  (forall r, In r (List.concat cd) -> contributes r = true ->
             complete r = true) ->
  exists stats, map_result hop_stats (group_by_hop cd) = Ok stats.
Proof.
  intros Hc. apply map_result_total.
  intros [h data] Hitem. apply group_by_hop_In in Hitem as [_ ->].
  assert (Hf : Forall (fun r => complete r = true)
                 (filter contributes (filter (at_hop h) (List.concat cd)))).
  { apply Forall_forall. intros r Hr.
    apply filter_In in Hr as [Hr Hcon]. apply filter_In in Hr as [Hr _].
    now apply Hc. }
  pose proof (hop_stats_acc_of h (List.concat cd) Hf) as Hs.
  cbv zeta in Hs.
  destruct (filter contributes (filter (at_hop h) (List.concat cd)));
    [eauto|].
  destruct Hs as (? & ? & ? & ? & ? & ? & ? & ? & Hs).
  repeat match type of Hs with _ /\ _ => destruct Hs as [_ Hs] end. eauto.
Qed.

Lemma sort_by_hop_raise (l : list HopStats) (e : exn) :
  sort_by_hop py_int l = Raise e ->
  e = ValueError /\ exists x, In x l /\ py_int (s_hop x) = None.
Proof.
  unfold sort_by_hop. intros H.
  destruct (map_result _ l) as [keyed|e'] eqn:E; simpl in H; [discriminate|].
  inversion H; subst e'. apply map_result_raise in E as (x & Hx & Hf).
  destruct (py_int (s_hop x)) eqn:Ei; [discriminate|].
  inversion Hf. split; [reflexivity | eauto].
Qed.

(** X8.  On an input on which the aggregator raises nothing, the hops of
    the output are the hop strings of the records, each once: one
    aggregate for every hop string that occurs in some run, whether its
    records hold numbers or not, and none for any other. *)
Theorem one_aggregate_per_hop_string (cd : list (list TracerouteOutput)) :
  aggregable py_int cd = true ->
  exists out,
    get_statistics_per_hop py_int cd = Ok out /\
    Permutation (map s_hop out)
      (nodup string_dec (map hop (List.concat cd))).
Proof.
  intros Hagg.
  destruct (get_statistics_per_hop_total py_int cd Hagg) as (out & Hout).
  exists out. split; [exact Hout|].
  apply get_statistics_per_hop_inv in Hout as (Hin & Hnd & _).
  apply NoDup_Permutation; [exact Hnd | apply NoDup_nodup|].
  intros h. rewrite nodup_In, !in_map_iff. split.
  - intros (st & Hh & Hst). apply Hin in Hst as (h' & Hex & Hs).
    apply hop_stats_hop in Hs as [Hh' _]. rewrite Hh' in Hh. subst h'.
    apply existsb_at_hop in Hex as (r & Hr & Hhr). eauto.
  - intros (r & Hh & Hr).
    assert (Hex : existsb (at_hop h) (List.concat cd) = true)
      by (apply existsb_at_hop; eauto).
    pose proof (hop_stats_acc_of h (List.concat cd)
                  (aggregable_complete py_int cd h Hagg)) as Hs.
    cbv zeta in Hs.
    destruct (filter contributes (filter (at_hop h) (List.concat cd))).
    + exists (null_stats h). split; [reflexivity|]. apply Hin. eauto.
    + destruct Hs as (? & ? & ? & ? & ? & ? & ? & ? & Hs).
      repeat match type of Hs with _ /\ _ => destruct Hs as [_ Hs] end.
      eexists. split; [|apply Hin; eauto]. reflexivity.
Qed.

(** X9.  The aggregator does not see where one run ends and the next
    begins: the runs give what their records give as one run, so a run
    without records changes nothing and two records of one hop in a run
    count like two runs. *)
Theorem run_boundaries_do_not_matter (cd : list (list TracerouteOutput)) :
  get_statistics_per_hop py_int cd =
  get_statistics_per_hop py_int [List.concat cd].
Proof.
  unfold get_statistics_per_hop.
  rewrite (group_by_hop_concat cd), (group_by_hop_concat [List.concat cd]).
  simpl. now rewrite app_nil_r.
Qed.


(** X16.  On an input on which the aggregator raises nothing, every
    aggregate has its four numbers all null, with an empty host field,
    or all set, with a host field that is not empty: the first when no
    record of the hop was added to the accumulators, the second
    otherwise. *)
Theorem aggregates_all_null_or_all_set (cd : list (list TracerouteOutput)) :
  aggregable py_int cd = true ->
  exists out,
    get_statistics_per_hop py_int cd = Ok out /\
    forall st, In st out ->
      (contributions (s_hop st) cd = [] /\ st = null_stats (s_hop st)) \/
      (contributions (s_hop st) cd <> [] /\ s_hosts st <> [] /\
       s_avg st <> None /\ s_max st <> None /\ s_med st <> None /\
       s_min st <> None).
Proof.
  intros Hagg.
  destruct (get_statistics_per_hop_total py_int cd Hagg) as (out & Hout).
  exists out. split; [exact Hout|].
  apply get_statistics_per_hop_inv in Hout as (Hin & _ & _).
  intros st Hst. apply Hin in Hst as (h & _ & Hs).
  pose proof (hop_stats_hop _ _ _ Hs) as [Hh _]. rewrite Hh.
  rewrite contributions_unfold.
  pose proof (hop_stats_acc_of h (List.concat cd)
                (aggregable_complete py_int cd h Hagg)) as Hacc.
  cbv zeta in Hacc.
  destruct (filter contributes (filter (at_hop h) (List.concat cd)))
    as [|c cs].
  - left. rewrite Hs in Hacc. inversion Hacc. now split.
  - right.
    destruct Hacc as (avgs & maxs & meds & mins & mean & M & med & m & Hacc).
    repeat match type of Hacc with _ /\ _ => destruct Hacc as [_ Hacc] end.
    rewrite Hs in Hacc. inversion Hacc; subst st. simpl.
    repeat split; discriminate.
Qed.

End AggregationMore.

Lemma one_aggregate_per_hop_string_witness :
  exists out,
    get_statistics_per_hop int_literal sample_runs = Ok out /\
    Permutation (map s_hop out)
      (nodup string_dec (map hop (List.concat sample_runs))).
Proof.
  apply (one_aggregate_per_hop_string int_literal sample_runs). reflexivity.
Defined.


Lemma aggregates_all_null_or_all_set_witness :
  exists out,
    get_statistics_per_hop int_literal sample_runs = Ok out /\
    forall st, In st out ->
      (contributions (s_hop st) sample_runs = [] /\
       st = null_stats (s_hop st)) \/
      (contributions (s_hop st) sample_runs <> [] /\ s_hosts st <> [] /\
       s_avg st <> None /\ s_max st <> None /\ s_med st <> None /\
       s_min st <> None).
Proof.
  apply (aggregates_all_null_or_all_set int_literal sample_runs). reflexivity.
Defined.

(** ** The callers *)

Lemma dict_set_fresh {V : Type} (k : string) (v : V) (d : dict V) :
  ~ In k (map fst d) -> dict_set k v d = (d ++ [(k, v)])%list.
Proof.
  induction d as [|[k' v'] d IH]; simpl; intros H; [reflexivity|].
  destruct (String.eqb k k') eqn:E.
  - apply String.eqb_eq in E. exfalso. apply H. now left.
  - rewrite IH; [reflexivity|]. intros Hin. apply H. now right.
Qed.

Lemma dict_set_NoDup {V : Type} (k : string) (v : V) (d : dict V) :
  NoDup (map fst d) -> NoDup (map fst (dict_set k v d)).
Proof.
  intros Hnd. rewrite dict_keys_set. unfold dict_mem.
  destruct (dict_get k d) eqn:E; [exact Hnd|].
  apply NoDup_app; [exact Hnd | repeat constructor; intros [] |].
  intros x Hx [<-|[]]. apply dict_get_In in Hx. congruence.
Qed.

(** A dict comprehension over distinct keys lists them in their order. *)
Lemma fold_dict_set_fresh {V : Type} (f : string -> V) (ks : list string)
  (d0 : dict V) :
  NoDup ks -> (forall k, In k ks -> ~ In k (map fst d0)) ->
  fold_left (fun d k => dict_set k (f k) d) ks d0 =
  (d0 ++ map (fun k => (k, f k)) ks)%list.
Proof.
  revert d0; induction ks as [|k ks IH]; intros d0 Hnd Hfresh; simpl.
  - now rewrite app_nil_r.
  - inversion Hnd as [|? ? Hk Hnd']; subst.
    rewrite dict_set_fresh by (apply Hfresh; now left).
    rewrite IH; [now rewrite <- app_assoc | exact Hnd'|].
    intros k' Hk' Hin. rewrite map_app in Hin. apply in_app_iff in Hin.
    destruct Hin as [Hin|[<-|[]]].
    + apply (Hfresh k'); [now right | exact Hin].
    + contradiction.
Qed.

Section CallersProofs.

Variable py_float : string -> option Q.
Variable py_int : string -> option Z.
Variable py_sleep : Z -> result unit.

(** *** What use_test_directory returns *)

Lemma use_test_directory_records (files : list string)
  (cd : list (list TracerouteOutput)) (lat : dict (list Q))
  (r : TracerouteOutput) :
  use_test_directory py_float files = Ok (cd, lat) ->
  In r (List.concat cd) ->
  r = timeout_record (hop r) \/ exists times, sample_record times r.
Proof.
  intros H Hr. apply use_test_directory_runs in H.
  apply in_concat in Hr as (run & Hrun & Hr).
  destruct (Forall2_In_r _ _ _ _ H Hrun) as (text & _ & l0 & l1 & Hp).
  apply parse_traceroute_output_records in Hp.
  now apply (proj1 (Forall_forall _ _) Hp).
Qed.

Lemma use_test_directory_complete (files : list string)
  (cd : list (list TracerouteOutput)) (lat : dict (list Q))
  (r : TracerouteOutput) :
  use_test_directory py_float files = Ok (cd, lat) ->
  In r (List.concat cd) -> contributes r = true -> complete r = true.
Proof.
  intros H Hr Hc.
  destruct (use_test_directory_records _ _ _ _ H Hr)
    as [Hto|(times & _ & _ & M & med & _ & _ & Hx & Hn & Hd)].
  - rewrite Hto in Hc. discriminate Hc.
  - unfold complete. now rewrite Hx, Hn, Hd.
Qed.

Lemma use_test_directory_raise (files : list string) (e : exn) :
  use_test_directory py_float files = Raise e -> e = IndexError.
Proof.
  unfold use_test_directory.
  generalize (@nil (list TracerouteOutput), @nil (string * list Q)).
  induction files as [|text files IH]; intros [cd lat] H; simpl in H;
    [discriminate|].
  destruct (parse_traceroute_output py_float text lat) as [[run l']|e']
    eqn:E; simpl in H.
  - now apply IH in H.
  - inversion H; subst e'. unfold parse_traceroute_output in E.
    now apply for_each_parse_hop_raise in E.
Qed.

(** The keys of the collector are distinct, and each is the hop of a
    record. *)
Lemma parse_hop_collector_keys (line : string)
  (out out' : list TracerouteOutput) (lat lat' : dict (list Q)) :
  parse_hop py_float line (out, lat) = Ok (out', lat') ->
  (NoDup (map fst lat) -> NoDup (map fst lat')) /\
  (forall k, In k (map fst lat') ->
             In k (map fst lat) \/ exists r, In r out' /\ hop r = k) /\
  (forall r, In r out -> In r out').
Proof.
  unfold parse_hop. destruct (split line) as [|hn rest]; [discriminate|].
  destruct (is_timeout (hn :: rest)).
  { intros H. inversion H; subst. repeat split; auto.
    intros r Hr. apply in_or_app. now left. }
  destruct (scan py_float (hn :: rest)) as [times hs].
  destruct times as [|t times].
  { intros H. inversion H; subst. repeat split; auto. }
  intros H.
  apply bind_Ok_inv in H as (M & _ & H).
  apply bind_Ok_inv in H as (M' & _ & H).
  apply bind_Ok_inv in H as (med & _ & H).
  inversion H; subst; clear H. split; [|split].
  - apply dict_set_NoDup.
  - intros k Hk. rewrite dict_keys_set in Hk.
    destruct (dict_mem hn lat); [now left|].
    apply in_app_iff in Hk as [Hk|[<-|[]]]; [now left|].
    right. eexists. split; [apply in_or_app; right; now left | reflexivity].
  - intros r Hr. apply in_or_app. now left.
Qed.

Lemma parse_collector_keys (text : string) (out : list TracerouteOutput)
  (lat lat' : dict (list Q)) :
  parse_traceroute_output py_float text lat = Ok (out, lat') ->
  (NoDup (map fst lat) -> NoDup (map fst lat')) /\
  (forall k, In k (map fst lat') ->
             In k (map fst lat) \/ exists r, In r out /\ hop r = k).
Proof.
  unfold parse_traceroute_output. intros H.
  set (P := fun st : list TracerouteOutput * dict (list Q) =>
              (NoDup (map fst lat) -> NoDup (map fst (snd st))) /\
              (forall k, In k (map fst (snd st)) ->
                 In k (map fst lat) \/
                 exists r, In r (fst st) /\ hop r = k)).
  assert (Hstep : forall line st st',
             P st -> parse_hop py_float line st = Ok st' -> P st').
  { intros line [o l] [o' l'] [Hnd Hk] Hs. unfold P in *. simpl in *.
    apply parse_hop_collector_keys in Hs as (Hnd' & Hk' & Hinc).
    split; [auto|]. intros k Hin.
    destruct (Hk' k Hin) as [Hold|Hnew]; [|now right].
    destruct (Hk k Hold) as [H0|(r & Hr & Hh)]; [now left|].
    right. exists r. split; [now apply Hinc | exact Hh]. }
  assert (H0 : P ([], lat)) by (unfold P; simpl; auto).
  exact (for_each_invariant _ P Hstep _ _ _ H0 H).
Qed.

Lemma use_test_directory_collector_keys (files : list string)
  (cd : list (list TracerouteOutput)) (lat : dict (list Q)) :
  use_test_directory py_float files = Ok (cd, lat) ->
  NoDup (map fst lat) /\
  forall k, In k (map fst lat) ->
            exists r, In r (List.concat cd) /\ hop r = k.
Proof.
  unfold use_test_directory. intros H.
  set (P := fun st : list (list TracerouteOutput) * dict (list Q) =>
              NoDup (map fst (snd st)) /\
              forall k, In k (map fst (snd st)) ->
                        exists r, In r (List.concat (fst st)) /\ hop r = k).
  assert (Hstep : forall text st st',
             P st ->
             (let '(cumulative_data, latencies_per_hop) := st in
              r <- parse_traceroute_output py_float text latencies_per_hop ;;
              Ok ((cumulative_data ++ [fst r])%list, snd r)) = Ok st' ->
             P st').
  { intros text [cd0 l0] [cd1 l1] [Hnd Hk] Hs. unfold P in *. simpl in *.
    apply bind_Ok_inv in Hs as ([run l'] & Hp & Hs). simpl in Hs.
    inversion Hs; subst; clear Hs.
    apply parse_collector_keys in Hp as [Hnd' Hk'].
    split; [auto|]. intros k Hin. rewrite concat_app. simpl.
    rewrite app_nil_r.
    destruct (Hk' k Hin) as [Hold|(r & Hr & Hh)].
    - destruct (Hk k Hold) as (r & Hr & Hh).
      exists r. split; [apply in_or_app; now left | exact Hh].
    - exists r. split; [apply in_or_app; now right | exact Hh]. }
  assert (H0 : P ([], [])).
  { unfold P. simpl. split; [constructor | intros k []]. }
  exact (for_each_invariant _ P Hstep _ _ _ H0 H).
Qed.

(** *** The aggregation of parsed runs *)

Lemma parsed_runs_stats (files : list string)
  (cd : list (list TracerouteOutput)) (lat : dict (list Q)) :
  use_test_directory py_float files = Ok (cd, lat) ->
  exists stats,
    map_result hop_stats (group_by_hop cd) = Ok stats /\
    get_statistics_per_hop py_int cd = sort_by_hop py_int stats /\
    forall x, In x stats ->
              exists r, In r (List.concat cd) /\ hop r = s_hop x.
Proof.
  intros H.
  destruct (group_stats_total cd) as (stats & Hstats).
  { intros r Hr. now apply (use_test_directory_complete _ _ _ _ H). }
  exists stats. split; [exact Hstats|]. split.
  - unfold get_statistics_per_hop. now rewrite Hstats.
  - intros x Hx. apply map_result_Forall2 in Hstats.
    destruct (Forall2_In_r _ _ _ _ Hstats Hx) as ([h data] & Hitem & Hh).
    apply hop_stats_hop in Hh as [-> _].
    apply group_by_hop_In in Hitem as [Hex _].
    now apply existsb_at_hop in Hex.
Qed.

(** X10.  On the runs that the parser returned the aggregator raises
    nothing but the [ValueError] of [int], and it raises it exactly when
    some record has a hop that [int] does not read: no record of the
    parser lacks a number that the aggregator needs. *)
Theorem aggregation_of_parsed_runs (files : list string)
  (cd : list (list TracerouteOutput)) (lat : dict (list Q)) :
  use_test_directory py_float files = Ok (cd, lat) ->
  (forall e, get_statistics_per_hop py_int cd = Raise e -> e = ValueError) /\
  ((exists out, get_statistics_per_hop py_int cd = Ok out) <->
   forall r, In r (List.concat cd) -> py_int (hop r) <> None).
Proof.
  intros H.
  destruct (parsed_runs_stats _ _ _ H) as (stats & _ & Hget & _).
  split; [|split].
  - intros e He. rewrite Hget in He. now apply sort_by_hop_raise in He.
  - intros (out & Hout) r Hr.
    apply get_statistics_per_hop_Ok_aggregable in Hout.
    now apply (aggregable_In py_int cd r Hout Hr).
  - intros Hint. apply get_statistics_per_hop_total.
    unfold aggregable. apply forallb_forall. intros r Hr.
    apply andb_true_iff. split.
    + specialize (Hint r Hr). now destruct (py_int (hop r)).
    + destruct (contributes r) eqn:Hc; [simpl|reflexivity].
      now apply (use_test_directory_complete _ _ _ _ H).
Qed.

(** *** execute_traceroute *)

Lemma for_each_ext_in {A S : Type} (f g : A -> S -> result S) (l : list A)
  (st : S) :
  (forall x, In x l -> forall st, f x st = g x st) ->
  for_each f l st = for_each g l st.
Proof.
  revert st; induction l as [|x l IH]; intros st H; cbn [for_each];
    [reflexivity|].
  rewrite (H x) by now left.
  destruct (g x st) as [st'|e]; cbn [bind]; [|reflexivity].
  apply IH. intros y Hy. apply H. now right.
Qed.

Lemma bind_Ok_r {A : Type} (m : result A) : bind m (fun a => Ok a) = m.
Proof. now destruct m. Qed.

Lemma for_each_execute_as_files (subroutine : nat -> option string)
  (l : list nat) (st : list (list TracerouteOutput) * dict (list Q)) :
  for_each
    (fun i st =>
       let '(cumulative_data, latencies_per_hop) := st in
       match subroutine i with
       | Some (String c s) =>
           r <- parse_traceroute_output py_float (String c s)
                  latencies_per_hop ;;
           Ok ((cumulative_data ++ [fst r])%list, snd r)
       | _ => Ok (cumulative_data, latencies_per_hop)
       end) l st =
  for_each
    (fun text st =>
       let '(cumulative_data, latencies_per_hop) := st in
       r <- parse_traceroute_output py_float text latencies_per_hop ;;
       Ok ((cumulative_data ++ [fst r])%list, snd r))
    (flat_map (fun i => match subroutine i with
                        | Some (String c s) => [String c s]
                        | _ => []
                        end) l) st.
Proof.
  revert st; induction l as [|i l IH]; intros [cd lat];
    cbn [for_each flat_map]; [reflexivity|].
  destruct (subroutine i) as [[|c s]|]; cbn [app for_each bind].
  - apply IH.
  - destruct (parse_traceroute_output py_float (String c s) lat)
      as [r|e]; cbn [bind]; [apply IH | reflexivity].
  - apply IH.
Qed.

(** When no sleep is made, or the sleep returns, the runs are those of
    the outputs that are parsed. *)
Lemma execute_traceroute_as_files (subroutine : nat -> option string)
  (n d : Z) :
  (n <= 1)%Z \/ py_sleep d = Ok tt ->
  execute_traceroute py_float py_sleep subroutine n d =
  use_test_directory py_float (successful_outputs subroutine n).
Proof.
  intros H. unfold execute_traceroute, use_test_directory, successful_outputs.
  rewrite <- for_each_execute_as_files.
  apply for_each_ext_in. intros i Hi st.
  apply in_seq in Hi.
  assert (Hturn : (if (Z.of_nat i <? n - 1)%Z
                   then py_sleep d else Ok tt) = Ok tt).
  { destruct (Z.ltb_spec (Z.of_nat i) (n - 1)) as [Hlt|Hge]; [|reflexivity].
    destruct H as [H|H]; [lia | exact H]. }
  match goal with
  | |- bind ?X _ = _ => destruct X as [st'|e]; cbn [bind]; [|reflexivity]
  end.
  destruct (Z.of_nat i <? n - 1)%Z; [|reflexivity].
  now rewrite Hturn.
Qed.

(** When two runs or more are asked for and the sleep raises, the loop
    ends in its first turn: on the exception of the sleep, or before it
    on the [IndexError] of the first output. *)
Lemma execute_traceroute_sleep_raises (subroutine : nat -> option string)
  (n d : Z) (e : exn) :
  (2 <= n)%Z -> py_sleep d = Raise e ->
  execute_traceroute py_float py_sleep subroutine n d = Raise e \/
  execute_traceroute py_float py_sleep subroutine n d = Raise IndexError.
Proof.
  intros Hn Hs. unfold execute_traceroute.
  destruct (Z.to_nat n) as [|k] eqn:En; [lia|].
  cbn [seq for_each].
  assert (Hc : (Z.of_nat 0 <? n - 1)%Z = true) by (apply Z.ltb_lt; lia).
  rewrite Hc, Hs.
  destruct (subroutine 0%nat) as [[|c s]|]; cbn [bind]; try now left.
  destruct (parse_traceroute_output py_float (String c s) [])
    as [r|e'] eqn:Ep; cbn [bind]; [now left|].
  right. unfold parse_traceroute_output in Ep.
  apply for_each_parse_hop_raise in Ep as [-> _]. reflexivity.
Qed.

(** X11.  Running traceroute [num_runs] times gives what the test
    directory gives on the outputs of the runs that succeeded with some
    output, in order, when the sleep between the runs returns or no
    sleep is made (one run at most): a failed process and an empty
    output add no run, and change neither the records nor the collector
    of the other runs.  When two runs or more are asked for and the
    sleep raises, as on a negative delay, the exception leaves after the
    first run, unless that run already raised the [IndexError] of a line
    without token. *)
Theorem failed_runs_are_left_out (subroutine : nat -> option string)
  (n d : Z) :
  ((n <= 1)%Z \/ py_sleep d = Ok tt ->
   execute_traceroute py_float py_sleep subroutine n d =
   use_test_directory py_float (successful_outputs subroutine n)) /\
  (forall e, (2 <= n)%Z -> py_sleep d = Raise e ->
     execute_traceroute py_float py_sleep subroutine n d = Raise e \/
     execute_traceroute py_float py_sleep subroutine n d = Raise IndexError).
Proof.
  split.
  - apply execute_traceroute_as_files.
  - intros e. apply execute_traceroute_sleep_raises.
Qed.

(** *** The figure *)

Lemma sorted_hops_spec (hop_data : dict (list Q)) (ks : list string) :
  sorted_hops py_int hop_data = Ok ks ->
  Permutation (map fst hop_data) ks /\ StronglySorted (key_le py_int) ks.
Proof.
  unfold sorted_hops. intros H.
  apply bind_Ok_inv in H as (keyed & Hk & H). inversion H; subst ks; clear H.
  apply map_result_Forall2 in Hk.
  assert (Hsnd : map snd keyed = map fst hop_data).
  { clear -Hk. induction Hk as [|x kx l keyed Hx Hrest IH]; simpl;
      [reflexivity|].
    destruct (py_int x); [|discriminate].
    injection Hx as <-. simpl. now rewrite IH. }
  assert (Hkey : forall kx, In kx keyed -> py_int (snd kx) = Some (fst kx)).
  { intros kx Hin. destruct (Forall2_In_r _ _ _ _ Hk Hin) as (x & _ & Hx).
    destruct (py_int x) eqn:E; inversion Hx; subst. exact E. }
  set (ltb := fun a b : Z * string => Z.ltb (fst a) (fst b)).
  pose proof (sort_by_perm ltb keyed) as Hperm.
  split.
  - rewrite <- Hsnd. now apply Permutation_map.
  - eapply StronglySorted_map; [|apply sort_by_key_sorted].
    intros a b Ha Hb Hab.
    apply (Permutation_in _ (Permutation_sym Hperm)) in Ha, Hb.
    unfold key_le. now rewrite (Hkey a Ha), (Hkey b Hb).
Qed.

Lemma sorted_hops_total (hop_data : dict (list Q)) :
  (forall k, In k (map fst hop_data) -> py_int k <> None) ->
  exists ks, sorted_hops py_int hop_data = Ok ks.
Proof.
  intros H. unfold sorted_hops.
  destruct (map_result_total
              (fun k => match py_int k with
                        | Some n => Ok (n, k)
                        | None => Raise ValueError
                        end) (map fst hop_data)) as (keyed & ->).
  - intros k Hk. specialize (H k Hk).
    destruct (py_int k); [eauto | congruence].
  - simpl. eauto.
Qed.

Lemma figure_of_collector (hop_data : dict (list Q)) (args : Args) :
  NoDup (map fst hop_data) ->
  (forall k, In k (map fst hop_data) -> py_int k <> None) ->
  exists fig ks,
    save_latency_distribution_boxplot_pdf py_int hop_data args = Ok fig /\
    Permutation (map fst hop_data) ks /\
    StronglySorted (key_le py_int) ks /\
    fig_traces fig = map (trace_of hop_data) ks.
Proof.
  intros Hnd Hint.
  destruct (sorted_hops_total hop_data Hint) as (ks & Hks).
  pose proof (sorted_hops_spec _ _ Hks) as [Hperm Hsorted].
  unfold save_latency_distribution_boxplot_pdf. rewrite Hks. cbn [bind].
  eexists. exists ks. split; [reflexivity|].
  split; [exact Hperm|]. split; [exact Hsorted|].
  cbn [fig_traces].
  rewrite (fold_dict_set_fresh
             (fun k => dict_get_default k [] hop_data) ks []).
  - simpl. rewrite map_map. reflexivity.
  - now apply (Permutation_NoDup Hperm).
  - intros k _ [].
Qed.

(** X12.  For a collector whose hops [int] reads, the figure has one box
    for every hop of the collector, named after the hop and holding all
    the samples of the hop, the boxes in ascending order of the hop
    number; it goes to the path given with [-g], or to ./trstats.pdf. *)
Theorem figure_has_one_box_per_hop (hop_data : dict (list Q)) (args : Args) :
  NoDup (map fst hop_data) ->
  (forall k, In k (map fst hop_data) -> py_int k <> None) ->
  exists fig ks,
    save_latency_distribution_boxplot_pdf py_int hop_data args = Ok fig /\
    Permutation (map fst hop_data) ks /\
    StronglySorted (key_le py_int) ks /\
    fig_traces fig = map (trace_of hop_data) ks /\
    fig_path fig = str_or (graph args) "./trstats.pdf".
Proof.
  intros Hnd Hint.
  destruct (figure_of_collector hop_data args Hnd Hint)
    as (fig & ks & Hfig & Hperm & Hs & Htr).
  exists fig, ks. repeat split; try assumption.
  unfold save_latency_distribution_boxplot_pdf in Hfig.
  apply bind_Ok_inv in Hfig as (ks' & _ & Hfig).
  inversion Hfig. reflexivity.
Qed.

(** Every hop of the collector is read by [int] and has an aggregate. *)
Lemma collector_hops_aggregated (files : list string)
  (cd : list (list TracerouteOutput)) (lat : dict (list Q))
  (stats : list HopStats) :
  use_test_directory py_float files = Ok (cd, lat) ->
  get_statistics_per_hop py_int cd = Ok stats ->
  NoDup (map fst lat) /\
  (forall k, In k (map fst lat) -> py_int k <> None) /\
  incl (map fst lat) (map s_hop stats).
Proof.
  intros Hutd Hstats.
  destruct (use_test_directory_collector_keys _ _ _ Hutd) as [Hnd Hkeys].
  pose proof (get_statistics_per_hop_Ok_aggregable py_int _ _ Hstats) as Hagg.
  split; [exact Hnd|]. split.
  - intros k Hk. destruct (Hkeys k Hk) as (r & Hr & <-).
    now apply (aggregable_In py_int cd r Hagg Hr).
  - intros k Hk. destruct (Hkeys k Hk) as (r & Hr & <-).
    apply get_statistics_per_hop_inv in Hstats as (Hin & _ & _).
    pose proof (hop_stats_acc_of (hop r) (List.concat cd)
                  (aggregable_complete py_int cd (hop r) Hagg)) as Hs.
    cbv zeta in Hs.
    assert (Hex : existsb (at_hop (hop r)) (List.concat cd) = true)
      by (apply existsb_at_hop; eauto).
    apply in_map_iff.
    destruct (filter contributes (filter (at_hop (hop r)) (List.concat cd))).
    + exists (null_stats (hop r)). split; [reflexivity|]. apply Hin. eauto.
    + destruct Hs as (? & ? & ? & ? & ? & ? & ? & ? & Hs).
      repeat match type of Hs with _ /\ _ => destruct Hs as [_ Hs] end.
      eexists. split; [|apply Hin; eauto]. reflexivity.
Qed.

(** X13.  Once the aggregates of the parsed runs are computed, the
    figure cannot fail: every hop of the collector is the hop of an
    aggregate, so [int] reads it; the figure has a box for each of
    them. *)
Theorem figure_follows_aggregation (files : list string)
  (cd : list (list TracerouteOutput)) (lat : dict (list Q))
  (stats : list HopStats) (args : Args) :
  use_test_directory py_float files = Ok (cd, lat) ->
  get_statistics_per_hop py_int cd = Ok stats ->
  exists fig ks,
    save_latency_distribution_boxplot_pdf py_int lat args = Ok fig /\
    fig_traces fig = map (trace_of lat) ks /\
    Permutation (map fst lat) ks /\
    incl ks (map s_hop stats).
Proof.
  intros Hutd Hstats.
  destruct (collector_hops_aggregated _ _ _ _ Hutd Hstats)
    as (Hnd & Hint & Hincl).
  destruct (figure_of_collector lat args Hnd Hint)
    as (fig & ks & Hfig & Hperm & _ & Htr).
  exists fig, ks. repeat split; try assumption.
  intros k Hk. apply Hincl.
  now apply (Permutation_in _ (Permutation_sym Hperm)).
Qed.

(** *** unwrap_arguments *)

Lemma gathered_cases (files : list string) (args : Args) :
  match (r <- use_test_directory py_float files ;;
         stats_per_hop <- get_statistics_per_hop py_int (fst r) ;;
         Ok (stats_per_hop, snd r)) with
  | Raise e => e = IndexError \/ e = ValueError
  | Ok (stats, lat) =>
      lat = [] \/
      (stats <> [] /\
       exists fig,
         save_latency_distribution_boxplot_pdf py_int lat args = Ok fig)
  end.
Proof.
  destruct (use_test_directory py_float files) as [[cd lat]|e] eqn:Hutd;
    cbn [bind fst snd].
  2:{ left. now apply use_test_directory_raise in Hutd. }
  destruct (get_statistics_per_hop py_int cd) as [stats|e] eqn:Hstats;
    cbn [bind].
  2:{ right. destruct (parsed_runs_stats _ _ _ Hutd) as (st & _ & Hget & _).
      rewrite Hget in Hstats. now apply sort_by_hop_raise in Hstats. }
  destruct lat as [|[k v] lat]; [now left | right].
  destruct (collector_hops_aggregated _ _ _ _ Hutd Hstats)
    as (Hnd & Hint & Hincl).
  split.
  - assert (Hk : In k (map s_hop stats)) by (apply Hincl; now left).
    intros ->. exact Hk.
  - destruct (figure_of_collector ((k, v) :: lat) args Hnd Hint)
      as (fig & ks & Hfig & _). eauto.
Qed.

(** X14.  The program writes all or nothing, as far as parsing,
    sleeping, aggregating and preparing the figure go (the failures of
    the file system and of plotly are not modelled).  When an exception
    leaves [unwrap_arguments] no file has been written, and the exception
    is the [IndexError] of a line without token, the [ValueError] of a
    hop that [int] does not read, or what the sleep between two runs
    raised.  When it returns, a figure is only written beside a JSON
    file, and the JSON file holds at least one aggregate and goes to the
    path given with [-o], or to ./trstats.json.  It leaves with the usage
    error only when neither [--test] nor [-t] is given. *)
Theorem all_or_nothing_is_written (args : Args) (files : list string)
  (subroutine : nat -> option string) :
  match unwrap_arguments py_float py_int py_sleep args files subroutine with
  | UsageError =>
      str_truthy (test args) = false /\ str_truthy (target args) = false
  | Uncaught e w =>
      w = nothing_written /\
      (e = IndexError \/ e = ValueError \/
       py_sleep (run_delay args) = Raise e)
  | Finished w =>
      (pdf_file w <> None -> json_file w <> None) /\
      (forall p stats, json_file w = Some (p, stats) ->
         p = str_or (output args) "./trstats.json" /\ stats <> [])
  end.
Proof.
  assert (Hgen : forall (U : Prop) fs,
    match
      match (r <- use_test_directory py_float fs ;;
             stats_per_hop <- get_statistics_per_hop py_int (fst r) ;;
             Ok (stats_per_hop, snd r)) with
      | Raise e => Uncaught e nothing_written
      | Ok (stats_per_hop, latencies_per_hop) =>
          let json :=
            match stats_per_hop with
            | [] => None
            | _ :: _ =>
                Some (str_or (output args) "./trstats.json", stats_per_hop)
            end in
          match latencies_per_hop with
          | [] => Finished {| json_file := json; pdf_file := None |}
          | _ :: _ =>
              match save_latency_distribution_boxplot_pdf py_int
                      latencies_per_hop args with
              | Ok fig =>
                  Finished {| json_file := json; pdf_file := Some fig |}
              | Raise e =>
                  Uncaught e {| json_file := json; pdf_file := None |}
              end
          end
      end
    with
    | UsageError => U
    | Uncaught e w =>
        w = nothing_written /\
        (e = IndexError \/ e = ValueError \/
         py_sleep (run_delay args) = Raise e)
    | Finished w =>
        (pdf_file w <> None -> json_file w <> None) /\
        (forall p stats, json_file w = Some (p, stats) ->
           p = str_or (output args) "./trstats.json" /\ stats <> [])
    end).
  { intros U fs. pose proof (gathered_cases fs args) as G.
    destruct (r <- use_test_directory py_float fs ;;
              stats_per_hop <- get_statistics_per_hop py_int (fst r) ;;
              Ok (stats_per_hop, snd r)) as [[stats lat]|e].
    2:{ split; [reflexivity|]. destruct G as [G|G]; auto. }
    cbv zeta.
    destruct lat as [|item lat].
    - cbn [json_file pdf_file]. split; [intros H; now contradict H|].
      intros p st Hj. destruct stats; [discriminate|].
      injection Hj as <- <-. split; [reflexivity | discriminate].
    - destruct G as [G|[Hne (fig & Hfig)]]; [discriminate|].
      rewrite Hfig. cbn [json_file pdf_file].
      destruct stats as [|s0 stats]; [congruence|].
      split; [intros _; discriminate|].
      intros p st Hj. injection Hj as <- <-.
      split; [reflexivity | discriminate]. }
  unfold unwrap_arguments. cbv zeta.
  destruct (str_truthy (test args)) eqn:Et.
  - apply (Hgen _ files).
  - destruct (str_truthy (target args)) eqn:Eg; cbn [negb]; [|now split].
    destruct (Z_le_gt_dec (num_runs args) 1) as [Hn|Hn].
    { rewrite execute_traceroute_as_files by now left.
      apply (Hgen _ (successful_outputs subroutine (num_runs args))). }
    destruct (py_sleep (run_delay args)) as [[]|e] eqn:Hs.
    { rewrite execute_traceroute_as_files by now right.
      apply (Hgen _ (successful_outputs subroutine (num_runs args))). }
    destruct (execute_traceroute_sleep_raises subroutine (num_runs args)
                (run_delay args) e) as [He|He]; [lia | exact Hs | |];
      rewrite He; cbn [bind]; (split; [reflexivity|]); auto.
Qed.

End CallersProofs.

Lemma aggregation_of_parsed_runs_witness :
  (forall e, get_statistics_per_hop int_literal sample_runs = Raise e ->
             e = ValueError) /\
  ((exists out, get_statistics_per_hop int_literal sample_runs = Ok out) <->
   forall r, In r (List.concat sample_runs) -> int_literal (hop r) <> None).
Proof.
  apply (aggregation_of_parsed_runs float_literal int_literal sample_files
           sample_runs sample_collector).
  vm_compute. reflexivity.
Defined.

Lemma figure_has_one_box_per_hop_witness :
  exists fig ks,
    save_latency_distribution_boxplot_pdf int_literal sample_collector
      test_args = Ok fig /\
    Permutation (map fst sample_collector) ks /\
    StronglySorted (key_le int_literal) ks /\
    fig_traces fig = map (trace_of sample_collector) ks /\
    fig_path fig = str_or (graph test_args) "./trstats.pdf".
Proof.
  apply (figure_has_one_box_per_hop int_literal sample_collector test_args).
  - vm_compute.
    repeat (constructor;
            [simpl; intros H; repeat destruct H as [H|H];
             try discriminate H; try contradiction|]).
    constructor.
  - intros k Hk. vm_compute in Hk.
    repeat destruct Hk as [<-|Hk]; try discriminate; contradiction.
Defined.

Lemma figure_follows_aggregation_witness :
  exists fig ks,
    save_latency_distribution_boxplot_pdf int_literal sample_collector
      test_args = Ok fig /\
    fig_traces fig = map (trace_of sample_collector) ks /\
    Permutation (map fst sample_collector) ks /\
    incl ks (map s_hop sample_stats).
Proof.
  apply (figure_follows_aggregation float_literal int_literal sample_files
           sample_runs sample_collector sample_stats test_args).
  - vm_compute. reflexivity.
  - vm_compute. reflexivity.
Defined.

(** On the sample runs the boxes are those of the hops 1, 2, 4 and 10;
    the hop 3, which timed out in both runs, has an aggregate and no
    box. *)
Lemma sample_figure_boxes :
  exists fig,
    save_latency_distribution_boxplot_pdf int_literal sample_collector
      test_args = Ok fig /\
    map box_name (fig_traces fig) = ["Hop 1"; "Hop 2"; "Hop 4"; "Hop 10"] /\
    map s_hop sample_stats = ["1"; "2"; "3"; "4"; "10"].
Proof. eexists. repeat split. Qed.

(** Of four runs, one failed and one printed nothing: the two others
    are parsed. *)
Lemma sample_subroutine_runs :
  execute_traceroute float_literal sleep_literal sample_subroutine 4 0 =
  use_test_directory float_literal sample_files.
Proof. reflexivity. Qed.

Lemma failed_runs_are_left_out_witness :
  execute_traceroute float_literal sleep_literal sample_subroutine 4 1 =
  use_test_directory float_literal
    (successful_outputs sample_subroutine 4) /\
  (execute_traceroute float_literal sleep_literal sample_subroutine 2 (-1) =
     Raise ValueError \/
   execute_traceroute float_literal sleep_literal sample_subroutine 2 (-1) =
     Raise IndexError).
Proof.
  split.
  - apply (proj1 (failed_runs_are_left_out float_literal sleep_literal
                    sample_subroutine 4 1)).
    right. reflexivity.
  - apply (proj2 (failed_runs_are_left_out float_literal sleep_literal
                    sample_subroutine 2 (-1)) ValueError).
    + lia.
    + reflexivity.
Defined.

(** With a delay of -1 second and two runs the sleep after the first run
    raises, and nothing is written; with one run no sleep is made. *)
Lemma negative_delay_raises :
  execute_traceroute float_literal sleep_literal sample_subroutine 2 (-1) =
    Raise ValueError /\
  unwrap_arguments float_literal int_literal sleep_literal
    {| num_runs := 2; run_delay := -1; max_hops := None; output := None;
       graph := None; target := Some "example.net"; test := None |}
    [] sample_subroutine = Uncaught ValueError nothing_written /\
  execute_traceroute float_literal sleep_literal sample_subroutine 1 (-1) =
    use_test_directory float_literal (successful_outputs sample_subroutine 1).
Proof. repeat split. Qed.
